(** * Host imports of the contract VM ([src/vm/imports.ts])

    A shallow embedding of the host-import boundary: the functions a contract
    running in a WASM instance calls to reach storage, the address codec and
    the signature-verification libraries.

    The imports are written in a small state-and-exception monad [Host]: a
    JavaScript [throw] is the outcome [Throw], a [return] is [Return].  The
    state is the guest's linear memory and the backend store, together with
    a chronological log of every call that leaves [imports.ts] (region reads
    and writes, the guest allocator, the backend, the two signature
    libraries).  The log is what lets a statement such as "returns without
    performing any verification" be written down and proved.

    Everything [imports.ts] imports from elsewhere ([./memory.js],
    [./sections.js], the noble libraries, Node's [Buffer] codecs, the
    backend object) is a field of the class [Collaborators]; the theorems
    hold for every instance.  One executable instance, [Reference.env], is
    given at the end of the definitions and serves the closed examples.

    Embedded first: [writeToContract], the three [db_*] accessors,
    [doDbScan], [doDbNext], [doAddrValidate], [doAddrCanonicalize], and the
    four signature imports.  [doAddrHumanize], [doQueryChain], [doDebug]
    and [doAbort] follow under "The remaining imports", over the further
    collaborators of the class [Services]. *)

From Stdlib Require Import ZArith String Ascii Bool Lia PeanoNat List.
From Stdlib.Strings Require Import Byte.
Import ListNotations.
Local Open Scope Z_scope.

Set Implicit Arguments.

(** ** Bytes and constants *)

(** A Node [Buffer] is a sequence of bytes. *)
Definition bytes : Type := list byte.

(** [Buffer.from(literal, "utf8")] for the ASCII literals of the file. *)
Definition utf8_literal (s : string) : bytes := list_byte_of_string s.

(** [buf.length] as a JavaScript number. *)
Definition len (b : bytes) : Z := Z.of_nat (length b).

(* imports.ts, lines 8-25 *)
Definition KI : Z := 1024.
Definition MI : Z := 1024 * 1024.
Definition MAX_LENGTH_DB_KEY : Z := 64 * KI.
Definition MAX_LENGTH_DB_VALUE : Z := 128 * KI.
Definition MAX_LENGTH_CANONICAL_ADDRESS : Z := 64.
Definition MAX_LENGTH_HUMAN_ADDRESS : Z := 256.
Definition MAX_LENGTH_QUERY_CHAIN_REQUEST : Z := 64 * KI.
Definition MAX_LENGTH_ED25519_SIGNATURE : Z := 64.
Definition MAX_LENGTH_ED25519_MESSAGE : Z := 128 * 1024.
Definition MAX_COUNT_ED25519_BATCH : Z := 256.
Definition MAX_LENGTH_DEBUG : Z := 2 * MI.
Definition MAX_LENGTH_ABORT : Z := 2 * MI.

Definition EDDSA_PUBKEY_LEN : Z := 32.
Definition ECDSA_SIGNATURE_LEN : Z := 64.
Definition ECDSA_UNCOMPRESSED_PUBKEY_LEN : Z := 65.
Definition ECDSA_PUBKEY_MAX_LEN : Z := ECDSA_UNCOMPRESSED_PUBKEY_LEN.
Definition MESSAGE_HASH_MAX_LEN : Z := 32.

(* imports.ts, lines 101-102 and 138-139 *)
Definition SECP256K1_VERIFY_CODE_VALID : Z := 0.
Definition SECP256K1_VERIFY_CODE_INVALID : Z := 1.
Definition ED25519_VERIFY_CODE_VALID : Z := 0.
Definition ED25519_VERIFY_CODE_INVALID : Z := 1.

(** ** Exceptions and outcomes *)

(** What a [throw] can carry.  [VmError_runtimeErr] and
    [CommunicationError_zeroAddress] are the two the file raises itself
    ([VmError.runtimeErr(msg)], [CommunicationError.zeroAddress()]);
    [SyntaxError] is what [BigInt("0x")] raises and [TypeError] what a
    library raises when handed [undefined]; the other three are raised
    inside a collaborator and only pass through the imports. *)
Inductive Exn : Type :=
| VmError_runtimeErr (msg : string)
| CommunicationError_zeroAddress
| SyntaxError (what : string)
| TypeError (what : string)
| RegionError (what : string)
| LibraryError (what : string)
| BackendError (what : string).

(** The completion of a call: a returned value or a thrown exception. *)
Inductive Outcome (A : Type) : Type :=
| Return (a : A)
| Throw (e : Exn).
Arguments Return {A} a.
Arguments Throw {A} e.

(** The call completed in band: the guest receives a value and goes on. *)
Definition in_band {A : Type} (o : Outcome A) : Prop := exists a, o = Return a.

(** The call was aborted by an exception that leaves the import. *)
Definition faulted {A : Type} (o : Outcome A) : Prop := exists e, o = Throw e.

(** ** Collaborators *)

(** Everything the imports call that is not defined in [imports.ts].  A
    function that can throw returns an [Outcome]. *)
Class Collaborators : Type := {
  (* the WASM instance: [instance.inner.exports.memory] and [.allocate] *)
  Memory : Type;
  allocate : Memory -> Z -> Outcome (Z * Memory);
  (* ./memory.js *)
  readRegion : Memory -> Z -> Z -> Outcome bytes;
  writeRegion : Memory -> Z -> bytes -> Outcome Memory;
  (* ./sections.js *)
  decodeSections : bytes -> Outcome (list bytes);
  (* JavaScript strings and Node's Buffer codecs:
     [buf.toString("utf8")], [Buffer.from(s, "base64url")],
     [buf.toString("base64url")] *)
  JsString : Type;
  JsString_eq_dec : forall a b : JsString, {a = b} + {a <> b};
  toString_utf8 : bytes -> JsString;
  from_base64url : JsString -> bytes;
  toString_base64url : bytes -> JsString;
  (* [instance.backend]: the store and the address codec *)
  Storage : Type;
  storage_get : Storage -> bytes -> option bytes;
  storage_set : Storage -> bytes -> bytes -> Storage;
  storage_remove : Storage -> bytes -> Storage;
  canonicalAddress : JsString -> Outcome bytes;
  (* @noble/secp256k1: [secp.verify(signature, hash, pubkey)], and
     [new secp.Signature(r, s, rec).recoverPublicKey(hash).toHex(false)]
     given as the bytes that hexadecimal string spells *)
  secp_verify : bytes -> bytes -> bytes -> Outcome bool;
  secp_recoverPublicKey : Z -> Z -> Z -> bytes -> Outcome bytes;
  (* @noble/ed25519: [ed.verify(signature, message, pubkey)] *)
  ed_verify : bytes -> bytes -> bytes -> Outcome bool
}.

Section HostMonad.

Context {env : Collaborators}.

(** ** The world an import runs in *)

(** One entry per call that leaves [imports.ts]. *)
Inductive Event : Type :=
| EvReadRegion (ptr maxLength : Z)
| EvWriteRegion (ptr : Z) (data : bytes)
| EvAllocate (size : Z)
| EvStorageGet (key : bytes)
| EvStorageSet (key value : bytes)
| EvStorageRemove (key : bytes)
| EvCanonicalAddress (human : JsString)
| EvSecpVerify (signature hash pubkey : bytes)
| EvSecpRecover (r s recovery : Z) (hash : bytes)
| EvEdVerify (signature message pubkey : bytes).

Record World : Type := mkWorld {
  memory : Memory;
  storage : Storage;
  trace : list Event
}.

(** The world after the calls [evs] were made, state untouched. *)
Definition logs (evs : list Event) (w : World) : World :=
  {| memory := memory w; storage := storage w; trace := trace w ++ evs |}.

Definition setMemory (m : Memory) (w : World) : World :=
  {| memory := m; storage := storage w; trace := trace w |}.

Definition setStorage (s : Storage) (w : World) : World :=
  {| memory := memory w; storage := s; trace := trace w |}.

(** ** The monad of host imports *)

Definition Host (A : Type) : Type := World -> Outcome A * World.

Definition ret {A : Type} (a : A) : Host A := fun w => (Return a, w).

Definition throw {A : Type} (e : Exn) : Host A := fun w => (Throw e, w).

Definition bind {A B : Type} (m : Host A) (k : A -> Host B) : Host B :=
  fun w =>
    match m w with
    | (Return a, w') => k a w'
    | (Throw e, w') => (Throw e, w')
    end.

(** A pure collaborator that may throw. *)
Definition lift {A : Type} (o : Outcome A) : Host A := fun w => (o, w).

End HostMonad.

Declare Scope host_scope.
Delimit Scope host_scope with host.
Notation "x <- m ;; k" := (bind m (fun x => k))
  (at level 61, m at next level, right associativity) : host_scope.
Notation "m ;; k" := (bind m (fun _ => k))
  (at level 61, right associativity) : host_scope.

Local Open Scope host_scope.

Section Imports.

Context {env : Collaborators}.

(** ** Calls that leave the file

    Each one records itself in the log, then acts. *)

(** [readRegion(memory, ptr, maxLength)] *)
Definition callReadRegion (ptr maxLength : Z) : Host bytes :=
  fun w => (readRegion (memory w) ptr maxLength, logs [EvReadRegion ptr maxLength] w).

(** [writeRegion(memory, ptr, data)] *)
Definition callWriteRegion (ptr : Z) (data : bytes) : Host unit :=
  fun w =>
    match writeRegion (memory w) ptr data with
    | Return m' => (Return tt, logs [EvWriteRegion ptr data] (setMemory m' w))
    | Throw e => (Throw e, logs [EvWriteRegion ptr data] w)
    end.

(** [(instance.inner.exports.allocate as CallableFunction)(size)] *)
Definition callAllocate (size : Z) : Host Z :=
  fun w =>
    match allocate (memory w) size with
    | Return (ptr, m') => (Return ptr, logs [EvAllocate size] (setMemory m' w))
    | Throw e => (Throw e, logs [EvAllocate size] w)
    end.

(** [instance.backend.storage.get(key)] *)
Definition callStorageGet (key : bytes) : Host (option bytes) :=
  fun w => (Return (storage_get (storage w) key), logs [EvStorageGet key] w).

(** [instance.backend.storage.set(key, value)] *)
Definition callStorageSet (key value : bytes) : Host unit :=
  fun w =>
    (Return tt, logs [EvStorageSet key value] (setStorage (storage_set (storage w) key value) w)).

(** [instance.backend.storage.remove(key)] *)
Definition callStorageRemove (key : bytes) : Host unit :=
  fun w =>
    (Return tt, logs [EvStorageRemove key] (setStorage (storage_remove (storage w) key) w)).

(** [instance.backend.api.canonicalAddress(human)] *)
Definition callCanonicalAddress (human : JsString) : Host bytes :=
  fun w => (canonicalAddress human, logs [EvCanonicalAddress human] w).

(** [secp.verify(signature, hash, pubkey)] *)
Definition callSecpVerify (signature hash pubkey : bytes) : Host bool :=
  fun w => (secp_verify signature hash pubkey, logs [EvSecpVerify signature hash pubkey] w).

(** [new secp.Signature(r, s, recoverParam).recoverPublicKey(hash).toHex(false)],
    read back by [Buffer.from(_, "hex")] *)
Definition callSecpRecover (r s recoverParam : Z) (hash : bytes) : Host bytes :=
  fun w =>
    (secp_recoverPublicKey r s recoverParam hash, logs [EvSecpRecover r s recoverParam hash] w).

(** [ed.verify(signature, message, pubkey)] *)
Definition callEdVerify (signature message pubkey : bytes) : Host bool :=
  fun w => (ed_verify signature message pubkey, logs [EvEdVerify signature message pubkey] w).

(** ** Buffer helpers used by the imports *)

(** [buf.subarray(from, to)] for [0 <= from <= to]: clamped to the buffer. *)
Definition subarray (b : bytes) (from to : nat) : bytes :=
  firstn (to - from) (skipn from b).

(** The number a big-endian byte string spells. *)
Definition bigint_be (b : bytes) : Z :=
  fold_left (fun acc x => acc * 256 + Z.of_N (Byte.to_N x)) b 0.

(** [BigInt(`0x${b.toString("hex")}`)]: the empty string of digits is a
    [SyntaxError]. *)
Definition BigInt_of_hex (b : bytes) : Outcome Z :=
  match b with
  | [] => Throw (SyntaxError "Cannot convert 0x to a BigInt")
  | _ :: _ => Return (bigint_be b)
  end.

(** ** The imports *)

(* imports.ts, lines 229-239 *)
Definition writeToContract (input : bytes) : Host Z :=
  targetPtr <- callAllocate (len input) ;;
  if targetPtr =? 0 then throw CommunicationError_zeroAddress
  else
    callWriteRegion targetPtr input ;;
    ret targetPtr.

(* imports.ts, lines 27-35 *)
Definition doDbRead (keyPtr : Z) : Host Z :=
  key <- callReadRegion keyPtr MAX_LENGTH_DB_KEY ;;
  value <- callStorageGet key ;;
  match value with
  | None => ret 0
  | Some v => writeToContract v
  end.

(* imports.ts, lines 37-46 *)
Definition doDbWrite (keyPtr valuePtr : Z) : Host unit :=
  key <- callReadRegion keyPtr MAX_LENGTH_DB_KEY ;;
  value <- callReadRegion valuePtr MAX_LENGTH_DB_VALUE ;;
  callStorageSet key value.

(* imports.ts, lines 48-52 *)
Definition doDbRemove (keyPtr : Z) : Host unit :=
  key <- callReadRegion keyPtr MAX_LENGTH_DB_KEY ;;
  callStorageRemove key.

(** [a !== b] on two strings. *)
Definition strict_neq (a b : JsString) : bool :=
  if JsString_eq_dec a b then false else true.

(** The re-encoded form of an address, lines 61-62: [nomalized] in the
    source. *)
Definition nomalized (sourceString : JsString) : JsString :=
  toString_base64url (from_base64url sourceString).

(* imports.ts, lines 54-70 *)
Definition doAddrValidate (sourcePtr : Z) : Host Z :=
  sourceData <- callReadRegion sourcePtr MAX_LENGTH_HUMAN_ADDRESS ;;
  if len sourceData =? 0 then writeToContract (utf8_literal "Input is empty")
  else
    let sourceString := toString_utf8 sourceData in
    if strict_neq (nomalized sourceString) sourceString
    then writeToContract (utf8_literal "Address is not normalized")
    else ret 0.

(* imports.ts, lines 72-87 *)
Definition doAddrCanonicalize (sourcePtr destinationPtr : Z) : Host Z :=
  sourceData <- callReadRegion sourcePtr MAX_LENGTH_HUMAN_ADDRESS ;;
  if len sourceData =? 0 then writeToContract (utf8_literal "Input is empty")
  else
    canonical <- callCanonicalAddress (toString_utf8 sourceData) ;;
    callWriteRegion destinationPtr canonical ;;
    ret 0.

(* imports.ts, lines 104-116 *)
Definition doSecp256k1Verify (hashPtr signaturePtr pubkeyPtr : Z) : Host Z :=
  hash <- callReadRegion hashPtr MESSAGE_HASH_MAX_LEN ;;
  signature <- callReadRegion signaturePtr ECDSA_SIGNATURE_LEN ;;
  pubkey <- callReadRegion pubkeyPtr ECDSA_PUBKEY_MAX_LEN ;;
  result <- callSecpVerify signature hash pubkey ;;
  ret (if result : bool then SECP256K1_VERIFY_CODE_VALID else SECP256K1_VERIFY_CODE_INVALID).

(* imports.ts, lines 118-136 *)
Definition doSecp256k1RecoverPubkey (hashPtr signaturePtr recoverParam : Z) : Host Z :=
  hash <- callReadRegion hashPtr MESSAGE_HASH_MAX_LEN ;;
  sig <- callReadRegion signaturePtr ECDSA_SIGNATURE_LEN ;;
  r <- lift (BigInt_of_hex (subarray sig 0 32)) ;;
  s <- lift (BigInt_of_hex (subarray sig 32 64)) ;;
  pubkey <- callSecpRecover r s recoverParam hash ;;
  writeToContract pubkey.

(* imports.ts, lines 141-157 *)
Definition doEd25519Verify (messagePtr signaturePtr pubkeyPtr : Z) : Host Z :=
  message <- callReadRegion messagePtr MAX_LENGTH_ED25519_MESSAGE ;;
  signature <- callReadRegion signaturePtr MAX_LENGTH_ED25519_SIGNATURE ;;
  pubkey <- callReadRegion pubkeyPtr EDDSA_PUBKEY_LEN ;;
  result <- callEdVerify signature message pubkey ;;
  ret (if result : bool then ED25519_VERIFY_CODE_VALID else ED25519_VERIFY_CODE_INVALID).

(** The three read ceilings of the batch import, lines 166-180. *)
Definition messagesMaxLength : Z := (MAX_LENGTH_ED25519_MESSAGE + 4) * MAX_COUNT_ED25519_BATCH.
Definition signaturesMaxLength : Z := (MAX_LENGTH_ED25519_SIGNATURE + 4) * MAX_COUNT_ED25519_BATCH.
Definition publicKeysMaxLength : Z := (EDDSA_PUBKEY_LEN + 4) * MAX_COUNT_ED25519_BATCH.

(** Lines 190-198: the shape rules.  [Some (messages, publicKeys)] are the
    two arrays after a possible [new Array(signaturesLen).fill(x[0])];
    [None] is the [return ED25519_VERIFY_CODE_INVALID] of the last branch.
    [x[0]] on an array whose length is 1 is its only element. *)
Definition expandBatch (messages signatures publicKeys : list bytes)
  : option (list bytes * list bytes) :=
  let messagesLen := length messages in
  let signaturesLen := length signatures in
  let publicKeysLen := length publicKeys in
  if (messagesLen =? signaturesLen)%nat && (signaturesLen =? publicKeysLen)%nat then
    Some (messages, publicKeys)
  else if (messagesLen =? 1)%nat && (signaturesLen =? publicKeysLen)%nat then
    match messages with
    | m0 :: _ => Some (repeat m0 signaturesLen, publicKeys)
    | [] => None
    end
  else if (publicKeysLen =? 1)%nat && (messagesLen =? signaturesLen)%nat then
    match publicKeys with
    | k0 :: _ => Some (messages, repeat k0 signaturesLen)
    | [] => None
    end
  else None.

(** Lines 207-212: the loop [for (let i = 0; i < messages.length; i++)],
    with [remaining = messages.length - i] iterations still to run.  An
    index past the end of an array reads [undefined], which [ed.verify]
    refuses. *)
Fixpoint verifyLoop (remaining i : nat) (messages signatures publicKeys : list bytes)
  : Host Z :=
  match remaining with
  | O => ret ED25519_VERIFY_CODE_VALID
  | S remaining' =>
      match nth_error signatures i, nth_error messages i, nth_error publicKeys i with
      | Some sg, Some m, Some k =>
          ok <- callEdVerify sg m k ;;
          if ok : bool then verifyLoop remaining' (S i) messages signatures publicKeys
          else ret ED25519_VERIFY_CODE_INVALID
      | _, _, _ => throw (TypeError "undefined is not a byte array")
      end
  end.

(* imports.ts, lines 159-213 *)
Definition doEd25519BatchVerify (messagesPtr signaturesPtr publicKeysPtr : Z) : Host Z :=
  messagesBuf <- callReadRegion messagesPtr messagesMaxLength ;;
  signaturesBuf <- callReadRegion signaturesPtr signaturesMaxLength ;;
  publicKeysBuf <- callReadRegion publicKeysPtr publicKeysMaxLength ;;
  messages <- lift (decodeSections messagesBuf) ;;
  signatures <- lift (decodeSections signaturesBuf) ;;
  publicKeys <- lift (decodeSections publicKeysBuf) ;;
  match expandBatch messages signatures publicKeys with
  | None => ret ED25519_VERIFY_CODE_INVALID
  | Some (messages', publicKeys') =>
      if negb (length messages' =? length signatures)%nat
         || negb (length messages' =? length publicKeys')%nat
      then ret ED25519_VERIFY_CODE_INVALID
      else verifyLoop (length messages') 0 messages' signatures publicKeys'
  end.

(* imports.ts, lines 252-259 *)
Definition doDbScan (startPtr endPtr order : Z) : Host Z :=
  throw (VmError_runtimeErr "Unsupported function").

(* imports.ts, lines 261-263 *)
Definition doDbNext (iteratorId : Z) : Host Z :=
  throw (VmError_runtimeErr "Unsupported function").

End Imports.

(** ** Sections wire format *)

(** The number a 4-byte big-endian length header spells. *)
Definition u32_be (b0 b1 b2 b3 : byte) : nat :=
  N.to_nat (((Byte.to_N b0 * 256 + Byte.to_N b1) * 256 + Byte.to_N b2) * 256 + Byte.to_N b3).

(** Modelled from the spec: [decodeSections] of [./sections.js], which is
    not among the sources.  The spec gives the format as "a byte buffer
    holding N items, each item prefixed by a 4-byte length followed by that
    many payload bytes, decoded into an ordered sequence of byte buffers",
    and lists malformed sections among the faults; the byte order of the
    length (big-endian here) is not given.  [fuel] bounds the number of
    headers, and a buffer has no more headers than bytes. *)
Fixpoint decodeSections_from (fuel : nat) (buf : bytes) : Outcome (list bytes) :=
  match buf with
  | [] => Return []
  | b0 :: b1 :: b2 :: b3 :: rest =>
      match fuel with
      | O => Throw (RegionError "malformed sections")
      | S fuel' =>
          let n := u32_be b0 b1 b2 b3 in
          if (n <=? length rest)%nat then
            match decodeSections_from fuel' (skipn n rest) with
            | Return items => Return (firstn n rest :: items)
            | Throw e => Throw e
            end
          else Throw (RegionError "malformed sections")
      end
  | _ => Throw (RegionError "malformed sections")
  end.

(** Modelled from the spec: the decoder of the sections wire format (see
    [decodeSections_from]). *)
Definition decodeSections_spec (buf : bytes) : Outcome (list bytes) :=
  decodeSections_from (length buf) buf.

(** The bytes a sequence of items takes on the wire: 4 for each length
    header, and the payloads. *)
Fixpoint sections_size (items : list bytes) : Z :=
  match items with
  | [] => 0
  | x :: items' => 4 + len x + sections_size items'
  end.

(** ** Vocabulary of the batch specification *)

Section BatchVocabulary.

Context {env : Collaborators}.

(** The arguments of one [ed.verify] call, in its order:
    signature, message, public key. *)
Definition Triple : Type := (bytes * bytes * bytes)%type.

(** Index-by-index pairing of three sequences. *)
Fixpoint zip3 (signatures messages publicKeys : list bytes) : list Triple :=
  match signatures, messages, publicKeys with
  | s :: signatures', m :: messages', k :: publicKeys' =>
      (s, m, k) :: zip3 signatures' messages' publicKeys'
  | _, _, _ => []
  end.

(** A triple passes [ed25519_verify]: the library call returns [true]. *)
Definition passes (t : Triple) : Prop :=
  let '(s, m, k) := t in ed_verify s m k = Return true.

(** A triple fails [ed25519_verify]: the library call returns [false]. *)
Definition fails (t : Triple) : Prop :=
  let '(s, m, k) := t in ed_verify s m k = Return false.

Definition verifyEvent (t : Triple) : Event :=
  let '(s, m, k) := t in EvEdVerify s m k.

(** Pairwise verification in index order, stopping at the first triple
    that does not pass. *)
Fixpoint verifyTriples (ts : list Triple) : Host Z :=
  match ts with
  | [] => ret ED25519_VERIFY_CODE_VALID
  | (s, m, k) :: ts' =>
      ok <- callEdVerify s m k ;;
      if ok : bool then verifyTriples ts' else ret ED25519_VERIFY_CODE_INVALID
  end.

(** The three shape rules of the specification. *)
Definition PairwiseShape (M S K : list bytes) : Prop :=
  length M = length S /\ length S = length K.

Definition SharedMessageShape (M S K : list bytes) : Prop :=
  length M = 1%nat /\ length S = length K.

Definition SharedKeyShape (M S K : list bytes) : Prop :=
  length K = 1%nat /\ length M = length S.

(** The three regions of a batch call are readable and decode to the
    sequences [M], [S], [K]. *)
Definition BatchDecoded (w : World) (messagesPtr signaturesPtr publicKeysPtr : Z)
  (M S K : list bytes) : Prop :=
  exists messagesBuf signaturesBuf publicKeysBuf,
    readRegion (memory w) messagesPtr messagesMaxLength = Return messagesBuf /\
    readRegion (memory w) signaturesPtr signaturesMaxLength = Return signaturesBuf /\
    readRegion (memory w) publicKeysPtr publicKeysMaxLength = Return publicKeysBuf /\
    decodeSections messagesBuf = Return M /\
    decodeSections signaturesBuf = Return S /\
    decodeSections publicKeysBuf = Return K.

(** The triples an accepted batch expands to, signatures paired with the
    (possibly broadcast) messages and public keys; none for a rejected one. *)
Definition expandedTriples (M S K : list bytes) : list Triple :=
  match expandBatch M S K with
  | Some (M', K') => zip3 S M' K'
  | None => []
  end.

(** The log entries of the three region reads of a batch call. *)
Definition batchReads (messagesPtr signaturesPtr publicKeysPtr : Z) : list Event :=
  [EvReadRegion messagesPtr messagesMaxLength;
   EvReadRegion signaturesPtr signaturesMaxLength;
   EvReadRegion publicKeysPtr publicKeysMaxLength].

(** The [ed.verify] calls of a log. *)
Definition isEdVerify (ev : Event) : bool :=
  match ev with
  | EvEdVerify _ _ _ => true
  | _ => false
  end.

Definition edVerifyCalls (t : list Event) : list Event := filter isEdVerify t.

(** The log entries of the three region reads of a single verification. *)
Definition secpReads (hashPtr signaturePtr pubkeyPtr : Z) : list Event :=
  [EvReadRegion hashPtr MESSAGE_HASH_MAX_LEN;
   EvReadRegion signaturePtr ECDSA_SIGNATURE_LEN;
   EvReadRegion pubkeyPtr ECDSA_PUBKEY_MAX_LEN].

Definition edReads (messagePtr signaturePtr pubkeyPtr : Z) : list Event :=
  [EvReadRegion messagePtr MAX_LENGTH_ED25519_MESSAGE;
   EvReadRegion signaturePtr MAX_LENGTH_ED25519_SIGNATURE;
   EvReadRegion pubkeyPtr EDDSA_PUBKEY_LEN].

(** A result hands the guest a pointer to the string [msg]: it is what
    [writeToContract msg] makes of the world, which, when the guest
    allocator answers with a pointer other than 0 and the write is in
    bounds, is that pointer, returned, with [msg] written at it. *)
Definition returnsErrorString (msg : bytes) (w : World) (res : Outcome Z * World) : Prop :=
  res = writeToContract msg w /\
  forall ptr m1 m2,
    allocate (memory w) (len msg) = Return (ptr, m1) ->
    ptr <> 0 ->
    writeRegion m1 ptr msg = Return m2 ->
    res = (Return ptr, logs [EvAllocate (len msg); EvWriteRegion ptr msg] (setMemory m2 w)).

(** The state later calls can see, memory and store, is the same in [w']
    as in [w]. *)
Definition sameState (w w' : World) : Prop :=
  memory w' = memory w /\ storage w' = storage w.

(** The verdict code of a verification. *)
Definition verdict (result : bool) : Z := if result then 0 else 1.

(** [readRegion] honours its ceiling: it never returns more than
    [maxLength] bytes. *)
Definition ReadsAreBounded : Prop :=
  forall m ptr maxLength b, readRegion m ptr maxLength = Return b -> len b <= maxLength.

(** [decodeSections] follows the wire format: the items it returns, each
    with its 4-byte header, fit in the buffer they were decoded from. *)
Definition SectionsFitBuffer : Prop :=
  forall buf items, decodeSections buf = Return items -> sections_size items <= len buf.

End BatchVocabulary.

(** ** An executable instance of the collaborators

    Used by the closed examples only.  Guest memory is a table of regions;
    the signature libraries are stand-ins without curve arithmetic, which
    accept exactly the "signatures" described at each definition. *)

Module Reference.

Definition bytes_eqb (a b : bytes) : bool :=
  if list_eq_dec Byte.byte_eq_dec a b then true else false.

(** *** Guest memory: pointer |-> content of the region it names *)

Definition Mem : Type := list (Z * bytes).

Fixpoint lookup (m : Mem) (ptr : Z) : option bytes :=
  match m with
  | [] => None
  | (p, d) :: m' => if p =? ptr then Some d else lookup m' ptr
  end.

Definition read (m : Mem) (ptr maxLength : Z) : Outcome bytes :=
  match lookup m ptr with
  | None => Throw (RegionError "no region at this pointer")
  | Some d =>
      if len d <=? maxLength then Return d
      else Throw (RegionError "region longer than the ceiling")
  end.

(** A write must fit the capacity of the region, its current length. *)
Definition write (m : Mem) (ptr : Z) (data : bytes) : Outcome Mem :=
  match lookup m ptr with
  | None => Throw (RegionError "no region at this pointer")
  | Some d =>
      if len data <=? len d then Return ((ptr, data) :: m)
      else Throw (RegionError "write past the end of the region")
  end.

Definition top (m : Mem) : Z := fold_right (fun e acc => Z.max (fst e) acc) 0 m.

(** The guest allocator: a fresh pointer above every region, never 0. *)
Definition alloc (m : Mem) (size : Z) : Outcome (Z * Mem) :=
  let ptr := top m + 1 in
  Return (ptr, (ptr, repeat "000"%byte (Z.to_nat size)) :: m).

(** *** Strings: sequences of code points *)

Definition Str : Type := list N.

Definition Str_eq_dec : forall a b : Str, {a = b} + {a <> b} := list_eq_dec N.eq_dec.

Definition str (s : string) : Str := map Byte.to_N (list_byte_of_string s).

(** UTF-8 decoding, exact on ASCII; every byte above 127 is shown as
    U+FFFD (Node does so for the bytes of an ill-formed sequence). *)
Definition utf8 (b : bytes) : Str :=
  map (fun x => let c := Byte.to_N x in if (c <? 128)%N then c else 65533%N) b.

Definition byte_of_N (n : N) : byte :=
  match Byte.of_N (n mod 256) with
  | Some b => b
  | None => "000"%byte
  end.

(** The base64url digit of a 6-bit value. *)
Definition digit (v : N) : N :=
  if (v <? 26)%N then 65 + v
  else if (v <? 52)%N then 97 + (v - 26)
  else if (v <? 62)%N then 48 + (v - 52)
  else if (v =? 62)%N then 45
  else 95.

(** The 6-bit value of a digit of either base64 alphabet. *)
Definition sextet (c : N) : option N :=
  if ((65 <=? c) && (c <=? 90))%N then Some (c - 65)%N
  else if ((97 <=? c) && (c <=? 122))%N then Some (c - 97 + 26)%N
  else if ((48 <=? c) && (c <=? 57))%N then Some (c - 48 + 52)%N
  else if ((c =? 45) || (c =? 43))%N then Some 62%N
  else if ((c =? 95) || (c =? 47))%N then Some 63%N
  else None.

(** [buf.toString("base64url")]: no padding. *)
Fixpoint encode64 (b : list N) : Str :=
  match b with
  | x :: y :: z :: b' =>
      digit (x / 4) :: digit ((x mod 4) * 16 + y / 16)
        :: digit ((y mod 16) * 4 + z / 64) :: digit (z mod 64) :: encode64 b'
  | [x; y] => [digit (x / 4); digit ((x mod 4) * 16 + y / 16); digit ((y mod 16) * 4)]
  | [x] => [digit (x / 4); digit ((x mod 4) * 16)]
  | [] => []
  end%N.

(** The digits of a string up to the first [=], other characters skipped. *)
Fixpoint sextets (s : Str) : list N :=
  match s with
  | [] => []
  | c :: s' =>
      if (c =? 61)%N then []
      else match sextet c with
           | Some v => v :: sextets s'
           | None => sextets s'
           end
  end.

Fixpoint decode64 (v : list N) : list N :=
  match v with
  | a :: b :: c :: d :: v' =>
      (a * 4 + b / 16) :: ((b mod 16) * 16 + c / 4) :: ((c mod 4) * 64 + d) :: decode64 v'
  | [a; b; c] => [a * 4 + b / 16; (b mod 16) * 16 + c / 4]
  | [a; b] => [a * 4 + b / 16]
  | _ => []
  end%N.

(** [Buffer.from(s, "base64url")], lenient as Node is. *)
Definition from64 (s : Str) : bytes := map byte_of_N (decode64 (sextets s)).

Definition to64 (b : bytes) : Str := encode64 (map Byte.to_N b).

(** *** Backend *)

Definition Store : Type := list (bytes * bytes).

Fixpoint store_get (s : Store) (key : bytes) : option bytes :=
  match s with
  | [] => None
  | (k, v) :: s' => if bytes_eqb k key then Some v else store_get s' key
  end.

Definition store_remove (s : Store) (key : bytes) : Store :=
  filter (fun e => negb (bytes_eqb (fst e) key)) s.

Definition store_set (s : Store) (key value : bytes) : Store :=
  (key, value) :: store_remove s key.

(** An address codec that accepts exactly the normalized base64url strings
    and throws on every other one. *)
Definition canonical (human : Str) : Outcome bytes :=
  if Str_eq_dec (to64 (from64 human)) human then Return (from64 human)
  else Throw (BackendError "not a canonical address encoding").

(** *** Signature libraries (stand-ins) *)

(** A public key is well formed when it is 33 bytes behind 02 or 03, or 65
    bytes behind 04. *)
Definition wellFormedKey (pubkey : bytes) : bool :=
  match pubkey with
  | b :: _ =>
      let t := Byte.to_N b in
      (((t =? 2) || (t =? 3))%N && (length pubkey =? 33)%nat)
      || ((t =? 4)%N && (length pubkey =? 65)%nat)
  | [] => false
  end.

(** A signature verifies when the key is well formed and the signature is
    the hash written twice; a malformed key is a plain [false]. *)
Definition secpVerify (signature hash pubkey : bytes) : Outcome bool :=
  if wellFormedKey pubkey then Return (bytes_eqb signature (hash ++ hash))
  else Return false.

(** Recovery throws unless the recovery id is 0..3 and [r], [s] are
    positive; the recovered key is 04 followed by the hash twice. *)
Definition secpRecover (r s recovery : Z) (hash : bytes) : Outcome bytes :=
  if (0 <=? recovery) && (recovery <=? 3) && (0 <? r) && (0 <? s)
  then Return ("004"%byte :: hash ++ hash)
  else Throw (LibraryError "cannot recover a public key").

(** A signature verifies when it is the public key followed by the
    message; an empty public key is refused with an exception. *)
Definition edVerify (signature message pubkey : bytes) : Outcome bool :=
  match pubkey with
  | [] => Throw (LibraryError "empty public key")
  | _ :: _ => Return (bytes_eqb signature (pubkey ++ message))
  end.

#[export] Instance env : Collaborators := {|
  Memory := Mem;
  allocate := alloc;
  readRegion := read;
  writeRegion := write;
  decodeSections := decodeSections_spec;
  JsString := Str;
  JsString_eq_dec := Str_eq_dec;
  toString_utf8 := utf8;
  from_base64url := from64;
  toString_base64url := to64;
  Storage := Store;
  storage_get := store_get;
  storage_set := store_set;
  storage_remove := store_remove;
  canonicalAddress := canonical;
  secp_verify := secpVerify;
  secp_recoverPublicKey := secpRecover;
  ed_verify := edVerify
|}.

(** The wire form of a sequence of items (each shorter than 256 bytes). *)
Definition section (item : bytes) : bytes :=
  ["000"; "000"; "000"]%byte ++ byte_of_N (N.of_nat (length item)) :: item.

Definition sections (items : list bytes) : bytes := concat (map section items).

(** A world whose memory holds the given regions, with an empty store and
    an empty log. *)
Definition world (m : Mem) : World := {| memory := m; storage := []; trace := [] |}.

End Reference.

(** ** Example worlds over the reference instance *)

Module Examples.

Import Reference.

Definition b (s : string) : bytes := utf8_literal s.

(** Three addresses: the empty one, a padded (not normalized) one and a
    normalized one; region 9 is scratch space for results. *)
Definition addresses : World :=
  world [(1, b ""); (2, b "AQI="); (3, b "AQID"); (9, repeat "000"%byte 16)].

(** A world whose regions 1, 2 and 3 hold the wire form of three
    sequences of items. *)
Definition batchWorld (M S K : list bytes) : World :=
  world [(1, sections M); (2, sections S); (3, sections K)].

(** Three messages, each signed by its own key. *)
Definition pairwiseM : list bytes := [b "m1"; b "m2"; b "m3"].
Definition pairwiseS : list bytes := [b "am1"; b "bm2"; b "cm3"].
Definition pairwiseK : list bytes := [b "a"; b "b"; b "c"].
Definition pairwise : World := batchWorld pairwiseM pairwiseS pairwiseK.

(** One message signed by two keys. *)
Definition sharedMessage : World := batchWorld [b "m"] [b "am"; b "bm"] [b "a"; b "b"].

(** Two messages signed by one key. *)
Definition sharedKey : World := batchWorld [b "m1"; b "m2"] [b "am1"; b "am2"] [b "a"].

(** Two messages, three signatures, three keys: no rule applies. *)
Definition ambiguous : World := batchWorld [b "m1"; b "m2"] pairwiseS pairwiseK.

(** The second signature is wrong, and the third key is one the library
    throws on. *)
Definition secondFailsS : list bytes := [b "am1"; b "xx"; b "cm3"].
Definition secondFailsK : list bytes := [b "a"; b "b"; b ""].
Definition secondFails : World := batchWorld pairwiseM secondFailsS secondFailsK.

(** Three regions without a single section. *)
Definition emptyBatch : World := batchWorld [] [] [].

(** One empty message under 257 one-byte keys, each signature the key. *)
Definition manyKeys : list bytes := repeat (b "k") 257.
Definition oversizedCount : World := batchWorld [[]] manyKeys manyKeys.

(** One message with a 65-byte signature and a 33-byte public key. *)
Definition longMessage : bytes := repeat "m"%byte 32.
Definition longKey : bytes := repeat "k"%byte 33.
Definition longSignature : bytes := longKey ++ longMessage.
Definition oversizedItems : World := batchWorld [longMessage] [longSignature] [longKey].

(** A hash, a signature that is the hash twice, and three keys: a
    well-formed compressed one, and two malformed ones. *)
Definition hash32 : bytes := repeat "h"%byte 32.
Definition goodKey : bytes := "002"%byte :: repeat "p"%byte 32.
Definition secpWorld : World :=
  world [(1, hash32); (2, hash32 ++ hash32); (3, goodKey);
         (4, b "bad key"); (5, []); (9, repeat "000"%byte 65)].

(** The same three byte strings at other pointers, beside other regions
    and with a store that is not empty. *)
Definition secpWorld' : World :=
  {| memory := [(7, b "noise"); (21, hash32); (22, hash32 ++ hash32); (23, goodKey)];
     storage := [(b "key", b "value")];
     trace := [EvAllocate 3] |}.

(** A message, its signature under the key "a", and the key. *)
Definition edWorld : World := world [(1, b "m"); (2, b "am"); (3, b "a")].

Definition edWorld' : World :=
  {| memory := [(31, b "m"); (32, b "am"); (33, b "a"); (1, b "other")];
     storage := [(b "key", b "value")];
     trace := [] |}.

End Examples.

(** ** The remaining imports

    [doAddrHumanize], [doQueryChain], [doDebug] and [doAbort] call three
    more collaborators and the process console.  The log of [World] has no
    entry for those calls: it records region reads and writes, the guest
    allocator, the store, [canonicalAddress] and the signature libraries. *)

(** What the remaining imports call beyond [Collaborators]. *)
Class Services {env : Collaborators} : Type := {
  (* [instance.backend.api.humanAddress(canonical)] *)
  humanAddress : bytes -> Outcome JsString;
  (* [Buffer.from(s, "utf8")] *)
  from_utf8 : JsString -> bytes;
  (* [instance.backend.querier.queryRaw(request)] *)
  queryRaw : bytes -> Outcome bytes
}.

Section RemainingImports.

Context {env : Collaborators} {svc : Services}.

(* imports.ts, lines 89-99 *)
Definition doAddrHumanize (sourcePtr destinationPtr : Z) : Host Z :=
  canonical <- callReadRegion sourcePtr MAX_LENGTH_CANONICAL_ADDRESS ;;
  human <- lift (humanAddress canonical) ;;
  callWriteRegion destinationPtr (from_utf8 human) ;;
  ret 0.

(* imports.ts, lines 241-250 *)
Definition doQueryChain (requestPtr : Z) : Host Z :=
  request <- callReadRegion requestPtr MAX_LENGTH_QUERY_CHAIN_REQUEST ;;
  result <- lift (queryRaw request) ;;
  writeToContract result.

(** The process beside the world of an import: what [console.log] has
    printed so far, oldest line first. *)
Record Process : Type := mkProcess {
  proc_world : World;
  proc_console : list JsString
}.

(* imports.ts, lines 215-220 *)
Definition doDebug (messagePtr : Z) (p : Process) : Outcome unit * Process :=
  match callReadRegion messagePtr MAX_LENGTH_DEBUG (proc_world p) with
  | (Return messageData, w') =>
      let msg := toString_utf8 messageData in
      (Return tt, {| proc_world := w'; proc_console := proc_console p ++ [msg] |})
  | (Throw e, w') => (Throw e, {| proc_world := w'; proc_console := proc_console p |})
  end.

(** How [doAbort] ends.  It has no [return]: either [readRegion] threw, or
    it threw [VmError.aborted(msg)] itself. *)
Inductive AbortFault : Type :=
| ReadFault (e : Exn)
| VmError_aborted (msg : JsString).

(* imports.ts, lines 222-227 *)
Definition doAbort (messagePtr : Z) (w : World) : AbortFault * World :=
  match callReadRegion messagePtr MAX_LENGTH_ABORT w with
  | (Return messageData, w') =>
      let msg := toString_utf8 messageData in
      (VmError_aborted msg, w')
  | (Throw e, w') => (ReadFault e, w')
  end.

(** ** Vocabulary of the further properties *)


Definition keepsMemory {A : Type} (m : Host A) : Prop :=
  forall w, memory (snd (m w)) = memory w.

(** The log of [w'] is the log of [w] followed by [evs]. *)
Definition logged (evs : list Event) (w w' : World) : Prop :=
  trace w' = trace w ++ evs.

(** Calls that change guest memory: the allocator and region writes. *)
Definition touchesGuest (ev : Event) : bool :=
  match ev with
  | EvWriteRegion _ _ | EvAllocate _ => true
  | _ => false
  end.

(** Calls of a signature library. *)
Definition isLibraryCall (ev : Event) : bool :=
  match ev with
  | EvSecpVerify _ _ _ | EvSecpRecover _ _ _ _ | EvEdVerify _ _ _ => true
  | _ => false
  end.

(** A verdict code. *)
Definition isVerdict (code : Z) : Prop := code = 0 \/ code = 1.

(** The library throws [e] on a triple. *)
Definition throwsOn (e : Exn) (t : Triple) : Prop :=
  let '(s, m, k) := t in ed_verify s m k = Throw e.

End RemainingImports.

(** ** Further instances for the closed examples *)

(** The reference instance with a guest allocator that has run out of
    memory: it answers every request with the pointer 0. *)
Module Exhausted.

Definition alloc (m : Reference.Mem) (size : Z) : Outcome (Z * Reference.Mem) :=
  Return (0, m).

Definition env : Collaborators := {|
  Memory := Reference.Mem;
  allocate := alloc;
  readRegion := Reference.read;
  writeRegion := Reference.write;
  decodeSections := decodeSections_spec;
  JsString := Reference.Str;
  JsString_eq_dec := Reference.Str_eq_dec;
  toString_utf8 := Reference.utf8;
  from_base64url := Reference.from64;
  toString_base64url := Reference.to64;
  Storage := Reference.Store;
  storage_get := Reference.store_get;
  storage_set := Reference.store_set;
  storage_remove := Reference.store_remove;
  canonicalAddress := Reference.canonical;
  secp_verify := Reference.secpVerify;
  secp_recoverPublicKey := Reference.secpRecover;
  ed_verify := Reference.edVerify
|}.

Definition world (m : Reference.Mem) : @World env := @mkWorld env m [] [].

(** A guest with one region and no room for a result. *)
Definition full : @World env := world [(1, utf8_literal "key")].

End Exhausted.

(** The reference instance with a secp256k1 library that checks the length
    of the signature first: a signature that is not 64 bytes is refused
    with an exception, whatever the key is; a 64-byte one is verified as
    in the reference instance, a malformed key giving [false]. *)
Module Strict.

Definition secpVerify (signature hash pubkey : bytes) : Outcome bool :=
  if (length signature =? 64)%nat then Reference.secpVerify signature hash pubkey
  else Throw (LibraryError "signature must be 64 bytes").

Definition env : Collaborators := {|
  Memory := Reference.Mem;
  allocate := Reference.alloc;
  readRegion := Reference.read;
  writeRegion := Reference.write;
  decodeSections := decodeSections_spec;
  JsString := Reference.Str;
  JsString_eq_dec := Reference.Str_eq_dec;
  toString_utf8 := Reference.utf8;
  from_base64url := Reference.from64;
  toString_base64url := Reference.to64;
  Storage := Reference.Store;
  storage_get := Reference.store_get;
  storage_set := Reference.store_set;
  storage_remove := Reference.store_remove;
  canonicalAddress := Reference.canonical;
  secp_verify := secpVerify;
  secp_recoverPublicKey := Reference.secpRecover;
  ed_verify := Reference.edVerify
|}.


End Strict.

(** Services over the reference instance: the address codec renders
    canonical bytes in base64url and refuses the empty address; strings are
    written back byte per code point (exact on ASCII); the querier answers
    a request with its bytes in reverse and refuses the empty request. *)
Module ReferenceServices.

Definition human (canonical : bytes) : Outcome Reference.Str :=
  match canonical with
  | [] => Throw (BackendError "empty canonical address")
  | _ :: _ => Return (Reference.to64 canonical)
  end.

Definition toBytes (s : Reference.Str) : bytes := map Reference.byte_of_N s.

Definition query (request : bytes) : Outcome bytes :=
  match request with
  | [] => Throw (BackendError "empty query")
  | _ :: _ => Return (rev request)
  end.

Definition svc : @Services Reference.env :=
  @Build_Services Reference.env human toBytes query.

End ReferenceServices.

Module MoreExamples.

Import Reference Examples.

(** A key, a value and another key in guest memory; the store is empty. *)
Definition dbWorld : World :=
  world [(1, b "key"); (2, b "value"); (3, b "other"); (4, b "key")].

(** The same memory over a store that holds the key. *)
Definition dbStored : World :=
  {| memory := [(1, b "key"); (2, b "value"); (3, b "other"); (4, b "key")];
     storage := [(b "key", b "old")];
     trace := [] |}.

(** A hash and signatures of 0, 20, 33 and 64 bytes. *)
Definition shortSignatures : World :=
  world [(1, hash32); (2, []); (3, repeat "s"%byte 20); (4, repeat "s"%byte 33);
         (5, hash32 ++ hash32)].

(** One message, no signature, no key. *)
Definition lonelyMessage : World := batchWorld [b "m"] [] [].

(** The second key is one the library throws on; the third signature is
    wrong. *)
Definition secondThrowsK : list bytes := [b "a"; b ""; b "c"].
Definition secondThrowsS : list bytes := [b "am1"; b "m2"; b "xx"].
Definition secondThrows : World := batchWorld pairwiseM secondThrowsS secondThrowsK.

(** A message region that is not a well-formed sequence of sections. *)
Definition malformedMessages : World :=
  world [(1, b "xyz"); (2, sections pairwiseS); (3, sections pairwiseK)].

(** One triple as a batch, and the same triple in three plain regions. *)
Definition batchOfOne : World :=
  world [(1, sections [b "m"]); (2, sections [b "am"]); (3, sections [b "a"]);
         (11, b "m"); (12, b "am"); (13, b "a")].

(** The message of [sharedMessage] written out once per signature. *)
Definition repeatedMessage : World :=
  batchWorld [b "m"; b "m"] [b "am"; b "bm"] [b "a"; b "b"].

(** The key of [sharedKey] written out once per signature. *)
Definition repeatedKey : World :=
  batchWorld [b "m1"; b "m2"] [b "am1"; b "am2"] [b "a"; b "a"].

(** A canonical address of three bytes, an empty one, a query, and scratch
    regions 8 and 9 for results. *)
Definition services : World :=
  world [(1, b "AQID"); (2, [x01; x02; x03]%byte); (3, []); (4, b "query");
         (8, repeat "000"%byte 16); (9, repeat "000"%byte 16)].

Definition quiet : Process := @mkProcess Reference.env services [].

End MoreExamples.

(** * Properties *)

Section Facts.

Context {env : Collaborators}.

(** ** Running the monad *)

Lemma logs_logs (a b : list Event) (w : World) :
  logs b (logs a w) = logs (a ++ b) w.
Proof. unfold logs; simpl. now rewrite app_assoc. Qed.

Lemma logs_nil (w : World) : logs [] w = w.
Proof. destruct w; unfold logs; simpl. now rewrite app_nil_r. Qed.

Lemma run_read {A : Type} (ptr maxLength : Z) (b : bytes) (w : World) (k : bytes -> Host A) :
  readRegion (memory w) ptr maxLength = Return b ->
  (x <- callReadRegion ptr maxLength ;; k x) w = k b (logs [EvReadRegion ptr maxLength] w).
Proof. intros H. unfold bind, callReadRegion. now rewrite H. Qed.

Lemma run_lift {A B : Type} (o : Outcome A) (a : A) (w : World) (k : A -> Host B) :
  o = Return a -> (x <- lift o ;; k x) w = k a w.
Proof. intros ->. reflexivity. Qed.

(** Three region reads in a row, all in bounds. *)
Lemma run_three_reads {A : Type} (p1 p2 p3 m1 m2 m3 : Z) (b1 b2 b3 : bytes) (w : World)
  (k : bytes -> bytes -> bytes -> Host A) :
  readRegion (memory w) p1 m1 = Return b1 ->
  readRegion (memory w) p2 m2 = Return b2 ->
  readRegion (memory w) p3 m3 = Return b3 ->
  (x1 <- callReadRegion p1 m1 ;; x2 <- callReadRegion p2 m2 ;;
   x3 <- callReadRegion p3 m3 ;; k x1 x2 x3) w
  = k b1 b2 b3 (logs [EvReadRegion p1 m1; EvReadRegion p2 m2; EvReadRegion p3 m3] w).
Proof.
  intros H1 H2 H3.
  erewrite run_read by exact H1.
  erewrite run_read by exact H2.
  erewrite run_read by exact H3.
  now rewrite !logs_logs.
Qed.

(** [writeToContract] when the guest allocator answers with a pointer other
    than 0 and the write is in bounds: the pointer is returned, and memory
    is what [writeRegion] made of it. *)
Lemma writeToContract_ok (input : bytes) (w : World) (ptr : Z) (m1 m2 : Memory) :
  allocate (memory w) (len input) = Return (ptr, m1) ->
  ptr <> 0 ->
  writeRegion m1 ptr input = Return m2 ->
  writeToContract input w
  = (Return ptr, logs [EvAllocate (len input); EvWriteRegion ptr input] (setMemory m2 w)).
Proof.
  intros Ha Hp Hw. unfold writeToContract, bind, callAllocate. rewrite Ha.
  apply Z.eqb_neq in Hp. rewrite Hp.
  unfold callWriteRegion. cbn [memory logs setMemory]. rewrite Hw.
  unfold ret, logs, setMemory; cbn. now rewrite <- app_assoc.
Qed.

(** ** The verification loop *)

Lemma nth_error_middle {A : Type} (l1 l2 : list A) (x : A) (n : nat) :
  n = length l1 -> nth_error (l1 ++ x :: l2) n = Some x.
Proof. intros ->. rewrite nth_error_app2 by lia. now rewrite Nat.sub_diag. Qed.

(** The indexed loop of the source, started at index [length S1] on arrays
    of equal lengths, is pairwise verification of the remaining triples. *)
Lemma verifyLoop_from (S2 : list bytes) :
  forall (S1 M1 K1 M2 K2 : list bytes) (w : World),
    length M1 = length S1 -> length K1 = length S1 ->
    length M2 = length S2 -> length K2 = length S2 ->
    verifyLoop (length M2) (length S1) (M1 ++ M2) (S1 ++ S2) (K1 ++ K2) w
    = verifyTriples (zip3 S2 M2 K2) w.
Proof.
  induction S2 as [|s S2 IH]; intros S1 M1 K1 [|m M2] [|k K2] w HM1 HK1 HM2 HK2;
    simpl in HM2, HK2; try discriminate.
  - reflexivity.
  - cbn [length verifyLoop zip3 verifyTriples].
    rewrite (nth_error_middle S1 S2 s eq_refl).
    rewrite (nth_error_middle M1 M2 m (eq_sym HM1)).
    rewrite (nth_error_middle K1 K2 k (eq_sym HK1)).
    unfold bind. destruct (callEdVerify s m k w) as [[[|]|e] w']; try reflexivity.
    specialize (IH (S1 ++ [s]) (M1 ++ [m]) (K1 ++ [k]) M2 K2 w').
    rewrite <- !app_assoc in IH. cbn [app] in IH.
    assert (Hlen : forall (l : list bytes) x, length (l ++ [x]) = Datatypes.S (length l))
      by (intros; rewrite length_app; simpl; lia).
    rewrite !Hlen in IH. apply IH; lia.
Qed.

Lemma verifyLoop_zip3 (M S K : list bytes) (w : World) :
  length M = length S -> length K = length S ->
  verifyLoop (length M) 0 M S K w = verifyTriples (zip3 S M K) w.
Proof.
  intros HM HK. exact (verifyLoop_from S [] [] [] M K w eq_refl eq_refl HM HK).
Qed.

(** Every triple passes: all are verified, in order, and the verdict is VALID. *)
Lemma verifyTriples_all (ts : list Triple) (w : World) :
  Forall passes ts ->
  verifyTriples ts w = (Return ED25519_VERIFY_CODE_VALID, logs (map verifyEvent ts) w).
Proof.
  intros H. revert w. induction H as [|[[s m] k] ts Hp _ IH]; intros w.
  - simpl. now rewrite logs_nil.
  - cbn [verifyTriples map verifyEvent]. unfold bind, callEdVerify.
    simpl in Hp. rewrite Hp. rewrite IH. now rewrite logs_logs.
Qed.

(** The first triple that does not pass fails: the verdict is INVALID and
    the triples behind it are not verified. *)
Lemma verifyTriples_first_failure (pre post : list Triple) (t : Triple) (w : World) :
  Forall passes pre -> fails t ->
  verifyTriples (pre ++ t :: post) w
  = (Return ED25519_VERIFY_CODE_INVALID, logs (map verifyEvent (pre ++ [t])) w).
Proof.
  intros H Ht. revert w. induction H as [|[[s m] k] ts Hp _ IH]; intros w.
  - destruct t as [[s m] k]. cbn [app verifyTriples map verifyEvent].
    unfold bind, callEdVerify. simpl in Ht. now rewrite Ht.
  - cbn [app verifyTriples map verifyEvent]. unfold bind, callEdVerify.
    simpl in Hp. rewrite Hp. rewrite IH. now rewrite logs_logs.
Qed.

(** A VALID verdict is reached only when every triple passes. *)
Lemma verifyTriples_valid_inv (ts : list Triple) (w : World) :
  fst (verifyTriples ts w) = Return ED25519_VERIFY_CODE_VALID -> Forall passes ts.
Proof.
  revert w. induction ts as [|[[s m] k] ts IH]; intros w H; constructor.
  - cbn [verifyTriples] in H. unfold bind, callEdVerify in H. simpl.
    destruct (ed_verify s m k) as [[|]|e]; simpl in H; try discriminate. reflexivity.
  - cbn [verifyTriples] in H. unfold bind, callEdVerify in H.
    destruct (ed_verify s m k) as [[|]|e]; simpl in H; try discriminate.
    eapply IH; eassumption.
Qed.

End Facts.

Section BatchFacts.

Context {env : Collaborators}.

(** ** The shape rules of the batch import *)

Lemma expandBatch_pairwise (M S K : list bytes) :
  PairwiseShape M S K -> expandBatch M S K = Some (M, K).
Proof.
  intros [H1 H2]. unfold expandBatch.
  apply Nat.eqb_eq in H1, H2. now rewrite H1, H2.
Qed.

Lemma expandBatch_shared_message (M S K : list bytes) :
  ~ PairwiseShape M S K -> SharedMessageShape M S K ->
  exists m, M = [m] /\ expandBatch M S K = Some (repeat m (length S), K).
Proof.
  intros Hn [H1 H2]. destruct M as [|m [|m' M]]; try discriminate.
  exists m. split; [reflexivity|]. unfold expandBatch.
  destruct ((length [m] =? length S)%nat && (length S =? length K)%nat) eqn:E.
  - exfalso. apply Hn. apply andb_prop in E as [E1 E2].
    apply Nat.eqb_eq in E1, E2. now split.
  - apply Nat.eqb_eq in H2. rewrite H2. reflexivity.
Qed.

Lemma expandBatch_shared_key (M S K : list bytes) :
  ~ PairwiseShape M S K -> ~ SharedMessageShape M S K -> SharedKeyShape M S K ->
  exists k, K = [k] /\ expandBatch M S K = Some (M, repeat k (length S)).
Proof.
  intros Hn Hm [H1 H2]. destruct K as [|k [|k' K]]; try discriminate.
  exists k. split; [reflexivity|]. unfold expandBatch.
  destruct ((length M =? length S)%nat && (length S =? length [k])%nat) eqn:E.
  { exfalso. apply Hn. apply andb_prop in E as [E1 E2].
    apply Nat.eqb_eq in E1, E2. now split. }
  destruct ((length M =? 1)%nat && (length S =? length [k])%nat) eqn:E'.
  { exfalso. apply Hm. apply andb_prop in E' as [E1 E2].
    apply Nat.eqb_eq in E1, E2. now split. }
  apply Nat.eqb_eq in H2. rewrite H2. reflexivity.
Qed.

Lemma expandBatch_none (M S K : list bytes) :
  ~ PairwiseShape M S K -> ~ SharedMessageShape M S K -> ~ SharedKeyShape M S K ->
  expandBatch M S K = None.
Proof.
  intros Hn Hm Hk. unfold expandBatch.
  destruct ((length M =? length S)%nat && (length S =? length K)%nat) eqn:E.
  { exfalso. apply Hn. apply andb_prop in E as [E1 E2].
    apply Nat.eqb_eq in E1, E2. now split. }
  destruct ((length M =? 1)%nat && (length S =? length K)%nat) eqn:E'.
  { exfalso. apply Hm. apply andb_prop in E' as [E1 E2].
    apply Nat.eqb_eq in E1, E2. now split. }
  destruct ((length K =? 1)%nat && (length M =? length S)%nat) eqn:E''.
  { exfalso. apply Hk. apply andb_prop in E'' as [E1 E2].
    apply Nat.eqb_eq in E1, E2. now split. }
  reflexivity.
Qed.

(** A batch is accepted exactly when one of the three rules applies. *)
Lemma expandBatch_accepts (M S K : list bytes) :
  (exists M' K', expandBatch M S K = Some (M', K'))
  <-> PairwiseShape M S K \/ SharedMessageShape M S K \/ SharedKeyShape M S K.
Proof.
  split.
  - intros (M' & K' & H). unfold expandBatch in H.
    destruct ((length M =? length S)%nat && (length S =? length K)%nat) eqn:E.
    { left. apply andb_prop in E as [E1 E2]. apply Nat.eqb_eq in E1, E2. now split. }
    destruct ((length M =? 1)%nat && (length S =? length K)%nat) eqn:E'.
    { right; left. apply andb_prop in E' as [E1 E2]. apply Nat.eqb_eq in E1, E2. now split. }
    destruct ((length K =? 1)%nat && (length M =? length S)%nat) eqn:E''.
    { right; right. apply andb_prop in E'' as [E1 E2]. apply Nat.eqb_eq in E1, E2. now split. }
    discriminate.
  - intros H.
    destruct (expandBatch M S K) as [[M' K']|] eqn:E; [now exists M', K'|].
    exfalso. unfold expandBatch in E.
    destruct ((length M =? length S)%nat && (length S =? length K)%nat) eqn:E1;
      [discriminate|].
    destruct ((length M =? 1)%nat && (length S =? length K)%nat) eqn:E2.
    { destruct M; [discriminate E2 | discriminate E]. }
    destruct ((length K =? 1)%nat && (length M =? length S)%nat) eqn:E3.
    { destruct K; [discriminate E3 | discriminate E]. }
    destruct H as [[H1 H2]|[[H1 H2]|[H1 H2]]].
    + apply Nat.eqb_eq in H1, H2. rewrite H1, H2 in E1. discriminate.
    + apply Nat.eqb_eq in H1, H2. rewrite H1, H2 in E2. discriminate.
    + apply Nat.eqb_eq in H1, H2. rewrite H1, H2 in E3. discriminate.
Qed.

(** After expansion the three arrays have the same length, so the second
    test of the source (lines 200-205) never fires. *)
Lemma expandBatch_lengths (M S K M' K' : list bytes) :
  expandBatch M S K = Some (M', K') -> length M' = length S /\ length K' = length S.
Proof.
  unfold expandBatch.
  destruct ((length M =? length S)%nat && (length S =? length K)%nat) eqn:E.
  { intros H; injection H as <- <-. apply andb_prop in E as [E1 E2].
    apply Nat.eqb_eq in E1, E2. split; congruence. }
  destruct ((length M =? 1)%nat && (length S =? length K)%nat) eqn:E'.
  { destruct M as [|m M]; [discriminate|]. intros H; injection H as <- <-.
    apply andb_prop in E' as [_ E2]. apply Nat.eqb_eq in E2.
    rewrite repeat_length. split; congruence. }
  destruct ((length K =? 1)%nat && (length M =? length S)%nat) eqn:E''.
  { destruct K as [|k K]; [discriminate|]. intros H; injection H as <- <-.
    apply andb_prop in E'' as [_ E2]. apply Nat.eqb_eq in E2.
    rewrite repeat_length. split; congruence. }
  discriminate.
Qed.

(** The batch import on readable, decodable regions: the verdict of the
    shape rules, then pairwise verification of the expanded triples. *)
Lemma batch_run (w : World) (mp sp kp : Z) (M S K : list bytes) :
  BatchDecoded w mp sp kp M S K ->
  doEd25519BatchVerify mp sp kp w
  = match expandBatch M S K with
    | None => (Return ED25519_VERIFY_CODE_INVALID, logs (batchReads mp sp kp) w)
    | Some (M', K') => verifyTriples (zip3 S M' K') (logs (batchReads mp sp kp) w)
    end.
Proof.
  intros (mb & sb & kb & Hm & Hs & Hk & HM & HS & HK).
  unfold doEd25519BatchVerify.
  erewrite run_three_reads by eassumption.
  erewrite run_lift by exact HM.
  erewrite run_lift by exact HS.
  erewrite run_lift by exact HK.
  fold (batchReads mp sp kp).
  destruct (expandBatch M S K) as [[M' K']|] eqn:E; [|reflexivity].
  destruct (expandBatch_lengths _ _ _ E) as [L1 L2].
  rewrite L1, L2, !Nat.eqb_refl. cbn [negb orb].
  rewrite <- L1. apply verifyLoop_zip3; congruence.
Qed.

End BatchFacts.

(** ** The batch import: shape rules, verdict, empty batch *)

Section BatchTheorems.

Context {env : Collaborators}.

(** C1.  Once the three regions are read and decoded into [M], [S], [K]:
    when the three lengths agree the triples are verified pairwise, index
    by index; otherwise, when there is one message and as many signatures
    as keys, that message is paired with every (signature, key); otherwise,
    when there is one key and as many messages as signatures, that key is
    paired with every (message, signature); in every other case the import
    returns INVALID (1) and the log gains no [ed.verify] call. *)
Theorem batch_shape_rules (w : World) (mp sp kp : Z) (M S K : list bytes) :
  BatchDecoded w mp sp kp M S K ->
  (PairwiseShape M S K ->
     doEd25519BatchVerify mp sp kp w
     = verifyTriples (zip3 S M K) (logs (batchReads mp sp kp) w)) /\
  (~ PairwiseShape M S K -> SharedMessageShape M S K ->
     exists m, M = [m] /\
       doEd25519BatchVerify mp sp kp w
       = verifyTriples (zip3 S (repeat m (length S)) K) (logs (batchReads mp sp kp) w)) /\
  (~ PairwiseShape M S K -> ~ SharedMessageShape M S K -> SharedKeyShape M S K ->
     exists k, K = [k] /\
       doEd25519BatchVerify mp sp kp w
       = verifyTriples (zip3 S M (repeat k (length S))) (logs (batchReads mp sp kp) w)) /\
  (~ PairwiseShape M S K -> ~ SharedMessageShape M S K -> ~ SharedKeyShape M S K ->
     doEd25519BatchVerify mp sp kp w
     = (Return ED25519_VERIFY_CODE_INVALID, logs (batchReads mp sp kp) w) /\
     edVerifyCalls (trace (snd (doEd25519BatchVerify mp sp kp w))) = edVerifyCalls (trace w)).
Proof.
  intros H. pose proof (batch_run H) as R. split; [|split; [|split]].
  - intros HP. now rewrite R, (expandBatch_pairwise HP).
  - intros HP HM. destruct (expandBatch_shared_message HP HM) as (m & -> & E).
    exists m. split; [reflexivity|]. now rewrite R, E.
  - intros HP HM HK. destruct (expandBatch_shared_key HP HM HK) as (k & -> & E).
    exists k. split; [reflexivity|]. now rewrite R, E.
  - intros HP HM HK. rewrite R, (expandBatch_none HP HM HK). split; [reflexivity|].
    cbn [snd logs trace]. unfold edVerifyCalls. rewrite filter_app. cbn.
    now rewrite app_nil_r.
Qed.

(** C2.  For a batch accepted by one of the three shape rules, the verdict
    is VALID (0) exactly when every expanded triple passes [ed.verify]; and
    when the first triple that does not pass fails, the verdict is INVALID
    (1) and the log shows the [ed.verify] calls up to that triple and none
    behind it. *)
Theorem batch_all_or_nothing (w : World) (mp sp kp : Z) (M S K : list bytes) :
  BatchDecoded w mp sp kp M S K ->
  PairwiseShape M S K \/ SharedMessageShape M S K \/ SharedKeyShape M S K ->
  (fst (doEd25519BatchVerify mp sp kp w) = Return ED25519_VERIFY_CODE_VALID
   <-> Forall passes (expandedTriples M S K)) /\
  (forall pre t post,
     expandedTriples M S K = pre ++ t :: post ->
     Forall passes pre -> fails t ->
     doEd25519BatchVerify mp sp kp w
     = (Return ED25519_VERIFY_CODE_INVALID,
        logs (batchReads mp sp kp ++ map verifyEvent (pre ++ [t])) w)).
Proof.
  intros H Hshape. pose proof (batch_run H) as R.
  apply expandBatch_accepts in Hshape as (M' & K' & E).
  unfold expandedTriples. rewrite E in R |- *. cbv beta iota in R |- *. split; [split|].
  - rewrite R. apply verifyTriples_valid_inv.
  - intros HF. rewrite R. now rewrite (verifyTriples_all _ HF).
  - intros pre t post Eq Hpre Ht. rewrite R, Eq.
    rewrite (@verifyTriples_first_failure _ pre post t _ Hpre Ht). now rewrite logs_logs.
Qed.

(** C10.  When the three regions decode to no message, no signature and no
    public key, the import returns VALID (0), and the log gains the three
    region reads and no [ed.verify] call. *)
Theorem batch_empty_is_valid (w : World) (mp sp kp : Z) :
  BatchDecoded w mp sp kp [] [] [] ->
  doEd25519BatchVerify mp sp kp w
  = (Return ED25519_VERIFY_CODE_VALID, logs (batchReads mp sp kp) w).
Proof.
  intros H. rewrite (batch_run H). reflexivity.
Qed.

End BatchTheorems.

(** Closed goals over the reference instance are settled by evaluation. *)
Ltac by_evaluation := vm_compute; reflexivity.

Ltac decoded_by_evaluation M S K :=
  exists (Reference.sections M), (Reference.sections S), (Reference.sections K);
  repeat (apply conj); by_evaluation.

Section BatchExamples.

#[local] Existing Instance Reference.env.

Lemma pairwise_decoded :
  BatchDecoded Examples.pairwise 1 2 3 Examples.pairwiseM Examples.pairwiseS Examples.pairwiseK.
Proof.
  decoded_by_evaluation Examples.pairwiseM Examples.pairwiseS Examples.pairwiseK.
Defined.

Lemma sharedMessage_decoded :
  BatchDecoded Examples.sharedMessage 1 2 3
    [Examples.b "m"] [Examples.b "am"; Examples.b "bm"] [Examples.b "a"; Examples.b "b"].
Proof.
  decoded_by_evaluation
    [Examples.b "m"] [Examples.b "am"; Examples.b "bm"] [Examples.b "a"; Examples.b "b"].
Defined.

Lemma sharedKey_decoded :
  BatchDecoded Examples.sharedKey 1 2 3
    [Examples.b "m1"; Examples.b "m2"] [Examples.b "am1"; Examples.b "am2"] [Examples.b "a"].
Proof.
  decoded_by_evaluation
    [Examples.b "m1"; Examples.b "m2"] [Examples.b "am1"; Examples.b "am2"] [Examples.b "a"].
Defined.

Lemma ambiguous_decoded :
  BatchDecoded Examples.ambiguous 1 2 3
    [Examples.b "m1"; Examples.b "m2"] Examples.pairwiseS Examples.pairwiseK.
Proof.
  decoded_by_evaluation
    [Examples.b "m1"; Examples.b "m2"] Examples.pairwiseS Examples.pairwiseK.
Defined.

Lemma secondFails_decoded :
  BatchDecoded Examples.secondFails 1 2 3
    Examples.pairwiseM Examples.secondFailsS Examples.secondFailsK.
Proof.
  decoded_by_evaluation Examples.pairwiseM Examples.secondFailsS Examples.secondFailsK.
Defined.

Lemma emptyBatch_decoded : BatchDecoded Examples.emptyBatch 1 2 3 [] [] [].
Proof. decoded_by_evaluation (@nil bytes) (@nil bytes) (@nil bytes). Defined.

(** The four branches of C1 on four batches: three messages with their own
    signers, one message under two signers, two messages under one signer,
    and two messages against three signatures. *)
Lemma batch_shape_rules_witness :
  (let w := Examples.pairwise in
   doEd25519BatchVerify 1 2 3 w
   = verifyTriples (zip3 Examples.pairwiseS Examples.pairwiseM Examples.pairwiseK)
       (logs (batchReads 1 2 3) w)) /\
  (let w := Examples.sharedMessage in
   exists m, [Examples.b "m"] = [m] /\
     doEd25519BatchVerify 1 2 3 w
     = verifyTriples
         (zip3 [Examples.b "am"; Examples.b "bm"] (repeat m 2) [Examples.b "a"; Examples.b "b"])
         (logs (batchReads 1 2 3) w)) /\
  (let w := Examples.sharedKey in
   exists k, [Examples.b "a"] = [k] /\
     doEd25519BatchVerify 1 2 3 w
     = verifyTriples
         (zip3 [Examples.b "am1"; Examples.b "am2"] [Examples.b "m1"; Examples.b "m2"] (repeat k 2))
         (logs (batchReads 1 2 3) w)) /\
  (let w := Examples.ambiguous in
   doEd25519BatchVerify 1 2 3 w
   = (Return ED25519_VERIFY_CODE_INVALID, logs (batchReads 1 2 3) w) /\
   edVerifyCalls (trace (snd (doEd25519BatchVerify 1 2 3 w))) = edVerifyCalls (trace w)).
Proof.
  split; [|split; [|split]].
  - apply (proj1 (batch_shape_rules pairwise_decoded)). split; reflexivity.
  - apply (proj1 (proj2 (batch_shape_rules sharedMessage_decoded))).
    + intros [E _]; discriminate E.
    + split; reflexivity.
  - apply (proj1 (proj2 (proj2 (batch_shape_rules sharedKey_decoded)))).
    + intros [_ E]; discriminate E.
    + intros [E _]; discriminate E.
    + split; reflexivity.
  - apply (proj2 (proj2 (proj2 (batch_shape_rules ambiguous_decoded)))).
    + intros [E _]; discriminate E.
    + intros [E _]; discriminate E.
    + intros [E _]; discriminate E.
Defined.

(** C2 on a batch of three whose second signature is wrong: the verdict is
    INVALID after two [ed.verify] calls, and the third triple, on which the
    library would throw, is never handed to it. *)
Lemma batch_all_or_nothing_witness :
  let w := Examples.secondFails in
  let t1 := (Examples.b "am1", Examples.b "m1", Examples.b "a") in
  let t2 := (Examples.b "xx", Examples.b "m2", Examples.b "b") in
  let t3 := (Examples.b "cm3", Examples.b "m3", Examples.b "") in
  expandedTriples Examples.pairwiseM Examples.secondFailsS Examples.secondFailsK
    = [t1] ++ t2 :: [t3] /\
  Forall passes [t1] /\ fails t2 /\
  ed_verify (Examples.b "cm3") (Examples.b "m3") (Examples.b "")
    = Throw (LibraryError "empty public key") /\
  doEd25519BatchVerify 1 2 3 w
  = (Return ED25519_VERIFY_CODE_INVALID,
     logs (batchReads 1 2 3 ++ map verifyEvent ([t1] ++ [t2])) w).
Proof.
  intros w t1 t2 t3.
  assert (E : expandedTriples Examples.pairwiseM Examples.secondFailsS Examples.secondFailsK
              = [t1] ++ t2 :: [t3]) by reflexivity.
  assert (P : Forall passes [t1]) by (repeat constructor).
  assert (F : fails t2) by reflexivity.
  split; [exact E | split; [exact P | split; [exact F | split; [reflexivity|]]]].
  apply (proj2 (batch_all_or_nothing secondFails_decoded
                  (or_introl (conj eq_refl eq_refl))) [t1] t2 [t3] E P F).
Defined.

(** C10 on three regions that hold no section. *)
Lemma batch_empty_is_valid_witness :
  BatchDecoded Examples.emptyBatch 1 2 3 [] [] [] /\
  doEd25519BatchVerify 1 2 3 Examples.emptyBatch
  = (Return ED25519_VERIFY_CODE_VALID, logs (batchReads 1 2 3) Examples.emptyBatch).
Proof.
  split; [exact emptyBatch_decoded | exact (batch_empty_is_valid emptyBatch_decoded)].
Defined.

End BatchExamples.

(** ** Address validation and canonicalization *)

Section AddressTheorems.

Context {env : Collaborators}.

Lemma strict_neq_true (a b : JsString) : a <> b -> strict_neq a b = true.
Proof. intros H. unfold strict_neq. now destruct (JsString_eq_dec a b). Qed.

Lemma strict_neq_false (a b : JsString) : a = b -> strict_neq a b = false.
Proof. intros H. unfold strict_neq. now destruct (JsString_eq_dec a b). Qed.

Lemma len_nil_eqb (b : bytes) : (len b =? 0) = true <-> b = [].
Proof.
  unfold len. destruct b; simpl; split; intros H; try reflexivity; discriminate.
Qed.

Lemma len_cons_eqb (b : bytes) : b <> [] -> (len b =? 0) = false.
Proof.
  intros H. destruct (len b =? 0) eqn:E; [|reflexivity].
  apply len_nil_eqb in E. contradiction.
Qed.

Lemma writeToContract_returnsErrorString (msg : bytes) (w : World) :
  returnsErrorString msg w (writeToContract msg w).
Proof.
  split; [reflexivity|]. intros ptr m1 m2 Ha Hp Hw. now apply writeToContract_ok with m1.
Qed.

(** C3.  Once the source region is read: an input of length zero gives a
    pointer to the string "Input is empty"; an input that is not empty and
    whose re-encoded form differs from it gives a pointer to the string
    "Address is not normalized"; an input that is not empty and equals its
    re-encoded form gives 0, with nothing allocated or written. *)
Theorem addr_validate_cases (w : World) (sourcePtr : Z) (sourceData : bytes) :
  readRegion (memory w) sourcePtr MAX_LENGTH_HUMAN_ADDRESS = Return sourceData ->
  (sourceData = [] ->
     returnsErrorString (utf8_literal "Input is empty")
       (logs [EvReadRegion sourcePtr MAX_LENGTH_HUMAN_ADDRESS] w)
       (doAddrValidate sourcePtr w)) /\
  (sourceData <> [] ->
   nomalized (toString_utf8 sourceData) <> toString_utf8 sourceData ->
     returnsErrorString (utf8_literal "Address is not normalized")
       (logs [EvReadRegion sourcePtr MAX_LENGTH_HUMAN_ADDRESS] w)
       (doAddrValidate sourcePtr w)) /\
  (sourceData <> [] ->
   nomalized (toString_utf8 sourceData) = toString_utf8 sourceData ->
     doAddrValidate sourcePtr w
     = (Return 0, logs [EvReadRegion sourcePtr MAX_LENGTH_HUMAN_ADDRESS] w)).
Proof.
  intros Hr. unfold doAddrValidate. erewrite run_read by exact Hr.
  split; [|split].
  - intros ->. cbn [len length Z.of_nat Z.eqb]. apply writeToContract_returnsErrorString.
  - intros Hne Hd. rewrite (len_cons_eqb Hne). cbv zeta. rewrite (strict_neq_true Hd).
    apply writeToContract_returnsErrorString.
  - intros Hne Hd. rewrite (len_cons_eqb Hne). cbv zeta. rewrite (strict_neq_false Hd).
    reflexivity.
Qed.

(** C6, as the code has it.  When the input is not empty and the backend's
    [canonicalAddress] throws, that exception leaves [addr_canonicalize]
    unchanged: no pointer is returned, nothing is allocated, and nothing is
    written to the destination or anywhere else in guest memory.  Only the
    empty-input check surfaces as a returned pointer to an allocated error
    message: an empty input gives a pointer to the string "Input is empty",
    and a pointer other than 0 is returned for no other input. *)
Theorem addr_canonicalize_codec_failure
  (w : World) (sourcePtr destinationPtr : Z) (sourceData : bytes) :
  readRegion (memory w) sourcePtr MAX_LENGTH_HUMAN_ADDRESS = Return sourceData ->
  (forall e,
     sourceData <> [] ->
     canonicalAddress (toString_utf8 sourceData) = Throw e ->
     doAddrCanonicalize sourcePtr destinationPtr w
     = (Throw e,
        logs [EvReadRegion sourcePtr MAX_LENGTH_HUMAN_ADDRESS;
              EvCanonicalAddress (toString_utf8 sourceData)] w)) /\
  (sourceData = [] ->
     returnsErrorString (utf8_literal "Input is empty")
       (logs [EvReadRegion sourcePtr MAX_LENGTH_HUMAN_ADDRESS] w)
       (doAddrCanonicalize sourcePtr destinationPtr w)) /\
  (forall ptr,
     fst (doAddrCanonicalize sourcePtr destinationPtr w) = Return ptr ->
     ptr <> 0 ->
     sourceData = []).
Proof.
  intros Hr. unfold doAddrCanonicalize. erewrite run_read by exact Hr.
  split; [|split].
  - intros e Hne Hc. rewrite (len_cons_eqb Hne). unfold bind, callCanonicalAddress.
    rewrite Hc. now rewrite logs_logs.
  - intros ->. cbn [len length Z.of_nat Z.eqb]. apply writeToContract_returnsErrorString.
  - intros ptr H Hp. destruct sourceData as [|x rest]; [reflexivity|]. exfalso.
    rewrite (len_cons_eqb (b := x :: rest)) in H by discriminate.
    unfold bind, callCanonicalAddress, callWriteRegion, ret in H. cbn [memory logs] in H.
    destruct (canonicalAddress (toString_utf8 (x :: rest))) as [c|e];
      [|discriminate H].
    destruct (writeRegion (memory w) destinationPtr c) as [m'|e]; [|discriminate H].
    cbn [fst] in H. injection H as <-. now apply Hp.
Qed.

End AddressTheorems.

(** ** Signature verification and key recovery *)

Section CryptoTheorems.

Context {env : Collaborators}.

(** The secp256k1 import on readable regions: the library's answer, as a
    verdict code or as the exception it threw. *)
Lemma secp256k1_verify_run (w : World) (hp sp kp : Z) (hash signature pubkey : bytes) :
  readRegion (memory w) hp MESSAGE_HASH_MAX_LEN = Return hash ->
  readRegion (memory w) sp ECDSA_SIGNATURE_LEN = Return signature ->
  readRegion (memory w) kp ECDSA_PUBKEY_MAX_LEN = Return pubkey ->
  doSecp256k1Verify hp sp kp w
  = (match secp_verify signature hash pubkey with
     | Return result => Return (verdict result)
     | Throw e => Throw e
     end,
     logs (secpReads hp sp kp ++ [EvSecpVerify signature hash pubkey]) w).
Proof.
  intros H1 H2 H3. unfold doSecp256k1Verify.
  erewrite run_three_reads by eassumption.
  unfold bind, callSecpVerify, ret. fold (secpReads hp sp kp).
  destruct (secp_verify signature hash pubkey) as [[|]|e]; now rewrite logs_logs.
Qed.

Lemma ed25519_verify_run (w : World) (mp sp kp : Z) (message signature pubkey : bytes) :
  readRegion (memory w) mp MAX_LENGTH_ED25519_MESSAGE = Return message ->
  readRegion (memory w) sp MAX_LENGTH_ED25519_SIGNATURE = Return signature ->
  readRegion (memory w) kp EDDSA_PUBKEY_LEN = Return pubkey ->
  doEd25519Verify mp sp kp w
  = (match ed_verify signature message pubkey with
     | Return result => Return (verdict result)
     | Throw e => Throw e
     end,
     logs (edReads mp sp kp ++ [EvEdVerify signature message pubkey]) w).
Proof.
  intros H1 H2 H3. unfold doEd25519Verify.
  erewrite run_three_reads by eassumption.
  unfold bind, callEdVerify, ret. fold (edReads mp sp kp).
  destruct (ed_verify signature message pubkey) as [[|]|e]; now rewrite logs_logs.
Qed.

(** A triple passes in the sense of the batch vocabulary exactly when
    [ed25519_verify] on regions holding it answers VALID. *)
Lemma passes_ed25519_verify (w : World) (mp sp kp : Z) (message signature pubkey : bytes) :
  readRegion (memory w) mp MAX_LENGTH_ED25519_MESSAGE = Return message ->
  readRegion (memory w) sp MAX_LENGTH_ED25519_SIGNATURE = Return signature ->
  readRegion (memory w) kp EDDSA_PUBKEY_LEN = Return pubkey ->
  (fst (doEd25519Verify mp sp kp w) = Return ED25519_VERIFY_CODE_VALID
   <-> passes (signature, message, pubkey)).
Proof.
  intros H1 H2 H3. rewrite (ed25519_verify_run w mp sp kp H1 H2 H3). cbn [fst passes].
  destruct (ed_verify signature message pubkey) as [[|]|e]; cbn [verdict];
    split; intros H; try reflexivity; discriminate H.
Qed.

(** Neither verification import touches memory or the store, whatever
    happens to the reads and to the library call. *)
Lemma secp256k1_verify_sameState (w : World) (hp sp kp : Z) :
  sameState w (snd (doSecp256k1Verify hp sp kp w)).
Proof.
  unfold doSecp256k1Verify, bind, callReadRegion, callSecpVerify, ret, sameState.
  cbn [memory logs].
  repeat match goal with
         | |- context [match ?x with Return _ => _ | Throw _ => _ end] => destruct x
         end; split; reflexivity.
Qed.

Lemma ed25519_verify_sameState (w : World) (mp sp kp : Z) :
  sameState w (snd (doEd25519Verify mp sp kp w)).
Proof.
  unfold doEd25519Verify, bind, callReadRegion, callEdVerify, ret, sameState.
  cbn [memory logs].
  repeat match goal with
         | |- context [match ?x with Return _ => _ | Throw _ => _ end] => destruct x
         end; split; reflexivity.
Qed.


Lemma BigInt_of_hex_nonempty (b : bytes) :
  b <> [] -> BigInt_of_hex b = Return (bigint_be b).
Proof. destruct b; [contradiction | reflexivity]. Qed.

Lemma subarray_nonempty (b : bytes) (from to : nat) :
  (from < to)%nat -> (from < length b)%nat -> subarray b from to <> [].
Proof.
  intros Hft Hfl. unfold subarray.
  destruct (skipn from b) as [|x rest] eqn:E.
  - apply (f_equal (@length byte)) in E. rewrite length_skipn in E. simpl in E. lia.
  - destruct (to - from)%nat eqn:D; [lia | discriminate].
Qed.

(** C7, as the code has it.  For every hash, 64-byte signature and
    recovery id on which the library's recovery throws, that exception
    leaves [secp256k1_recover_pubkey] unchanged: no value is returned in
    band, nothing is allocated, and guest memory is not written. *)
Theorem secp256k1_recover_failure
  (w : World) (hp sp recoverParam : Z) (hash sig : bytes) (e : Exn) :
  readRegion (memory w) hp MESSAGE_HASH_MAX_LEN = Return hash ->
  readRegion (memory w) sp ECDSA_SIGNATURE_LEN = Return sig ->
  length sig = 64%nat ->
  secp_recoverPublicKey (bigint_be (subarray sig 0 32)) (bigint_be (subarray sig 32 64))
    recoverParam hash = Throw e ->
  doSecp256k1RecoverPubkey hp sp recoverParam w
  = (Throw e,
     logs [EvReadRegion hp MESSAGE_HASH_MAX_LEN;
           EvReadRegion sp ECDSA_SIGNATURE_LEN;
           EvSecpRecover (bigint_be (subarray sig 0 32)) (bigint_be (subarray sig 32 64))
             recoverParam hash] w).
Proof.
  intros H1 H2 L Hrec. unfold doSecp256k1RecoverPubkey.
  erewrite run_read by exact H1. erewrite run_read by exact H2.
  erewrite run_lift by (apply BigInt_of_hex_nonempty, subarray_nonempty; lia).
  erewrite run_lift by (apply BigInt_of_hex_nonempty, subarray_nonempty; lia).
  unfold bind, callSecpRecover. rewrite Hrec. now rewrite !logs_logs.
Qed.

(** C8.  Two calls of a verification import whose three regions hold the
    same bytes give the same outcome, at whatever pointers and in whatever
    worlds they are made; and a call leaves memory and the store as it
    found them. *)
Theorem verify_deterministic_and_pure :
  (forall (w w' : World) (hp sp kp hp' sp' kp' : Z) (hash signature pubkey : bytes),
     readRegion (memory w) hp MESSAGE_HASH_MAX_LEN = Return hash ->
     readRegion (memory w) sp ECDSA_SIGNATURE_LEN = Return signature ->
     readRegion (memory w) kp ECDSA_PUBKEY_MAX_LEN = Return pubkey ->
     readRegion (memory w') hp' MESSAGE_HASH_MAX_LEN = Return hash ->
     readRegion (memory w') sp' ECDSA_SIGNATURE_LEN = Return signature ->
     readRegion (memory w') kp' ECDSA_PUBKEY_MAX_LEN = Return pubkey ->
     fst (doSecp256k1Verify hp sp kp w) = fst (doSecp256k1Verify hp' sp' kp' w')) /\
  (forall (w w' : World) (mp sp kp mp' sp' kp' : Z) (message signature pubkey : bytes),
     readRegion (memory w) mp MAX_LENGTH_ED25519_MESSAGE = Return message ->
     readRegion (memory w) sp MAX_LENGTH_ED25519_SIGNATURE = Return signature ->
     readRegion (memory w) kp EDDSA_PUBKEY_LEN = Return pubkey ->
     readRegion (memory w') mp' MAX_LENGTH_ED25519_MESSAGE = Return message ->
     readRegion (memory w') sp' MAX_LENGTH_ED25519_SIGNATURE = Return signature ->
     readRegion (memory w') kp' EDDSA_PUBKEY_LEN = Return pubkey ->
     fst (doEd25519Verify mp sp kp w) = fst (doEd25519Verify mp' sp' kp' w')) /\
  (forall (w : World) (hp sp kp : Z), sameState w (snd (doSecp256k1Verify hp sp kp w))) /\
  (forall (w : World) (mp sp kp : Z), sameState w (snd (doEd25519Verify mp sp kp w))).
Proof.
  split; [|split; [|split]].
  - intros w w' hp sp kp hp' sp' kp' hash signature pubkey H1 H2 H3 H1' H2' H3'.
    now rewrite (secp256k1_verify_run w hp sp kp H1 H2 H3),
      (secp256k1_verify_run w' hp' sp' kp' H1' H2' H3').
  - intros w w' mp sp kp mp' sp' kp' message signature pubkey H1 H2 H3 H1' H2' H3'.
    now rewrite (ed25519_verify_run w mp sp kp H1 H2 H3),
      (ed25519_verify_run w' mp' sp' kp' H1' H2' H3').
  - apply secp256k1_verify_sameState.
  - apply ed25519_verify_sameState.
Qed.

(** C9.  [db_scan] and [db_next] throw the runtime error "Unsupported
    function" for every argument and leave the world as it was: memory, the
    store and the log, which gains no read, write or other call. *)
Theorem db_scan_next_unsupported (w : World) (startPtr endPtr order iteratorId : Z) :
  doDbScan startPtr endPtr order w = (Throw (VmError_runtimeErr "Unsupported function"), w) /\
  doDbNext iteratorId w = (Throw (VmError_runtimeErr "Unsupported function"), w).
Proof. split; reflexivity. Qed.

End CryptoTheorems.

(** ** Length ceilings of the batch import *)

Section CeilingTheorems.

Context {env : Collaborators}.

Lemma len_nonneg (b : bytes) : 0 <= len b.
Proof. unfold len. lia. Qed.

Lemma sections_size_count (items : list bytes) :
  4 * Z.of_nat (length items) <= sections_size items.
Proof.
  induction items as [|x items IH]; [simpl; lia|].
  cbn [sections_size length]. pose proof (len_nonneg x). lia.
Qed.

Lemma sections_size_item (items : list bytes) (x : bytes) :
  In x items -> 4 + len x <= sections_size items.
Proof.
  induction items as [|y items IH]; [contradiction|].
  intros [->|H]; cbn [sections_size].
  - pose proof (sections_size_count items). lia.
  - specialize (IH H). pose proof (len_nonneg y). lia.
Qed.

(** Pairwise verification adds [ed.verify] calls to the log and nothing
    else. *)
Lemma verifyTriples_calls (ts : list Triple) (w : World) :
  exists calls,
    snd (verifyTriples ts w) = logs calls w /\ forallb isEdVerify calls = true.
Proof.
  revert w. induction ts as [|[[s m] k] ts IH]; intros w.
  - exists []. split; [simpl; now rewrite logs_nil | reflexivity].
  - cbn [verifyTriples]. unfold bind, callEdVerify.
    destruct (ed_verify s m k) as [[|]|e].
    + destruct (IH (logs [EvEdVerify s m k] w)) as (calls & E & F).
      exists (EvEdVerify s m k :: calls). split; [|exact F].
      rewrite E. now rewrite logs_logs.
    + exists [EvEdVerify s m k]. split; reflexivity.
    + exists [EvEdVerify s m k]. split; reflexivity.
Qed.

(** What a region read of at most [ceiling] bytes leaves of a decoded
    sequence: its wire size, hence its count and each of its items. *)
Lemma decoded_within (ceiling : Z) (m : Memory) (ptr : Z) (buf : bytes) (items : list bytes) :
  ReadsAreBounded -> SectionsFitBuffer ->
  readRegion m ptr ceiling = Return buf ->
  decodeSections buf = Return items ->
  sections_size items <= ceiling /\
  4 * Z.of_nat (length items) <= ceiling /\
  Forall (fun x => len x <= ceiling - 4) items.
Proof.
  intros HR HS Hr Hd. pose proof (HR _ _ _ _ Hr) as B. pose proof (HS _ _ Hd) as F.
  split; [lia|]. split.
  - pose proof (sections_size_count items). lia.
  - apply Forall_forall. intros x Hx. pose proof (sections_size_item _ _ Hx). lia.
Qed.

(** C4, as the code has it.  Let [readRegion] honour its ceiling and
    [decodeSections] follow the wire format.  The import reads its three
    regions first, under the ceilings 33555456, 17408 and 9216 bytes
    ((item ceiling + 4) * 256), whatever the section headers say; after
    them the log holds only [ed.verify] calls.  So each decoded sequence,
    with 4 bytes per item, fits the ceiling of its region: that bounds the
    number of items by a quarter of the ceiling and each item by the
    ceiling less 4, and not by 256 items or by the ceiling of one item. *)
Theorem batch_read_ceilings (w : World) (mp sp kp : Z) (M S K : list bytes) :
  ReadsAreBounded -> SectionsFitBuffer ->
  BatchDecoded w mp sp kp M S K ->
  (messagesMaxLength = 33555456 /\ signaturesMaxLength = 17408 /\
   publicKeysMaxLength = 9216) /\
  (exists calls,
     snd (doEd25519BatchVerify mp sp kp w) = logs (batchReads mp sp kp ++ calls) w /\
     forallb isEdVerify calls = true) /\
  (sections_size M <= 33555456 /\ sections_size S <= 17408 /\ sections_size K <= 9216) /\
  (Z.of_nat (length M) <= 8388864 /\ Z.of_nat (length S) <= 4352 /\
   Z.of_nat (length K) <= 2304) /\
  (Forall (fun x => len x <= 33555452) M /\ Forall (fun x => len x <= 17404) S /\
   Forall (fun x => len x <= 9212) K).
Proof.
  intros HR HS H. pose proof (batch_run H) as R.
  destruct H as (mb & sb & kb & Hm & Hs & Hk & HM & HS' & HK).
  destruct (@decoded_within _ _ _ _ _ HR HS Hm HM) as (A1 & A2 & A3).
  destruct (@decoded_within _ _ _ _ _ HR HS Hs HS') as (B1 & B2 & B3).
  destruct (@decoded_within _ _ _ _ _ HR HS Hk HK) as (C1 & C2 & C3).
  change messagesMaxLength with 33555456 in *.
  change signaturesMaxLength with 17408 in *.
  change publicKeysMaxLength with 9216 in *.
  split; [now repeat apply conj|]. split.
  { rewrite R. destruct (expandBatch M S K) as [[M' K']|].
    - destruct (verifyTriples_calls (zip3 S M' K') (logs (batchReads mp sp kp) w))
        as (calls & E & F).
      exists calls. split; [|exact F]. rewrite E. now rewrite logs_logs.
    - exists []. split; [|reflexivity]. now rewrite app_nil_r. }
  split; [repeat apply conj; assumption|].
  split; [repeat apply conj; lia|].
  repeat apply conj; assumption.
Qed.

End CeilingTheorems.

(** ** The reference instance honours the two contracts *)

Lemma Reference_reads_bounded : ReadsAreBounded (env := Reference.env).
Proof.
  intros m ptr maxLength b. cbn [readRegion Reference.env]. unfold Reference.read.
  destruct (Reference.lookup m ptr) as [d|]; [|discriminate].
  destruct (len d <=? maxLength) eqn:E; [|discriminate].
  intros H; injection H as <-. now apply Z.leb_le.
Qed.

Lemma decodeSections_from_size (fuel : nat) :
  forall (buf : bytes) (items : list bytes),
    decodeSections_from fuel buf = Return items -> sections_size items = len buf.
Proof.
  induction fuel as [|fuel IH]; intros buf items H.
  - destruct buf as [|b0 [|b1 [|b2 [|b3 rest]]]]; simpl in H; try discriminate.
    injection H as <-. reflexivity.
  - destruct buf as [|b0 [|b1 [|b2 [|b3 rest]]]]; cbn [decodeSections_from] in H;
      try discriminate.
    + injection H as <-. reflexivity.
    + destruct (u32_be b0 b1 b2 b3 <=? length rest)%nat eqn:E; [|discriminate].
      apply Nat.leb_le in E.
      destruct (decodeSections_from fuel (skipn (u32_be b0 b1 b2 b3) rest)) as [items'|e] eqn:D;
        [|discriminate].
      injection H as <-. apply IH in D. cbn [sections_size]. rewrite D.
      unfold len. cbn [length]. rewrite length_firstn, length_skipn. lia.
Qed.

(** The decoder never runs out of fuel: past the length of the buffer, more
    fuel changes nothing. *)
Lemma decodeSections_from_fuel (fuel : nat) :
  forall (fuel' : nat) (buf : bytes),
    (length buf <= fuel)%nat -> (length buf <= fuel')%nat ->
    decodeSections_from fuel buf = decodeSections_from fuel' buf.
Proof.
  induction fuel as [|fuel IH]; intros fuel' buf L L'.
  - destruct buf; [|simpl in L; lia]. now destruct fuel'.
  - destruct buf as [|b0 [|b1 [|b2 [|b3 rest]]]]; destruct fuel' as [|fuel'];
      try reflexivity; cbn [length] in L, L'; try lia.
    cbn [decodeSections_from].
    destruct (u32_be b0 b1 b2 b3 <=? length rest)%nat; [|reflexivity].
    rewrite (IH fuel' (skipn (u32_be b0 b1 b2 b3) rest)); [reflexivity | |];
      rewrite length_skipn; lia.
Qed.

Lemma decodeSections_spec_enough_fuel (fuel : nat) (buf : bytes) :
  (length buf <= fuel)%nat -> decodeSections_from fuel buf = decodeSections_spec buf.
Proof. intros L. apply decodeSections_from_fuel; [exact L | lia]. Qed.

Lemma Reference_sections_fit : SectionsFitBuffer (env := Reference.env).
Proof.
  intros buf items H. cbn [decodeSections Reference.env] in H.
  unfold decodeSections_spec in H. apply decodeSections_from_size in H. lia.
Qed.

(** ** The theorems at work on the reference instance *)

Section ReferenceExamples.

#[local] Existing Instance Reference.env.

Import Examples.

(** C3 on three addresses: the empty one, the padded "AQI=" that re-encodes
    as "AQI", and "AQID" that re-encodes as itself.  The allocator answers
    with pointer 10. *)
Lemma addr_validate_cases_witness :
  (readRegion (memory addresses) 1 MAX_LENGTH_HUMAN_ADDRESS = Return [] /\
   exists m,
     doAddrValidate 1 addresses
     = (Return 10,
        logs [EvAllocate 14; EvWriteRegion 10 (utf8_literal "Input is empty")]
          (setMemory m (logs [EvReadRegion 1 MAX_LENGTH_HUMAN_ADDRESS] addresses))) /\
     Reference.lookup m 10 = Some (utf8_literal "Input is empty")) /\
  (readRegion (memory addresses) 2 MAX_LENGTH_HUMAN_ADDRESS = Return (b "AQI=") /\
   nomalized (toString_utf8 (b "AQI=")) = Reference.str "AQI" /\
   exists m,
     doAddrValidate 2 addresses
     = (Return 10,
        logs [EvAllocate 25; EvWriteRegion 10 (utf8_literal "Address is not normalized")]
          (setMemory m (logs [EvReadRegion 2 MAX_LENGTH_HUMAN_ADDRESS] addresses))) /\
     Reference.lookup m 10 = Some (utf8_literal "Address is not normalized")) /\
  (readRegion (memory addresses) 3 MAX_LENGTH_HUMAN_ADDRESS = Return (b "AQID") /\
   nomalized (toString_utf8 (b "AQID")) = toString_utf8 (b "AQID") /\
   doAddrValidate 3 addresses
   = (Return 0, logs [EvReadRegion 3 MAX_LENGTH_HUMAN_ADDRESS] addresses)).
Proof.
  assert (R1 : readRegion (memory addresses) 1 MAX_LENGTH_HUMAN_ADDRESS = Return [])
    by reflexivity.
  assert (R2 : readRegion (memory addresses) 2 MAX_LENGTH_HUMAN_ADDRESS = Return (b "AQI="))
    by reflexivity.
  assert (R3 : readRegion (memory addresses) 3 MAX_LENGTH_HUMAN_ADDRESS = Return (b "AQID"))
    by reflexivity.
  split; [|split].
  - split; [exact R1|].
    eexists. split.
    + eapply (proj2 (proj1 (addr_validate_cases addresses 1 R1) eq_refl)).
      * reflexivity.
      * discriminate.
      * reflexivity.
    + reflexivity.
  - split; [exact R2|]. split; [by_evaluation|].
    eexists. split.
    + eapply (proj2 (proj1 (proj2 (addr_validate_cases addresses 2 R2))
                      ltac:(discriminate)
                      ltac:(intros E; vm_compute in E; discriminate E))).
      * reflexivity.
      * discriminate.
      * reflexivity.
    + reflexivity.
  - split; [exact R3|]. split; [by_evaluation|].
    apply (proj2 (proj2 (addr_validate_cases addresses 3 R3))).
    + discriminate.
    + by_evaluation.
Defined.

(** C4 on the batch of three messages with their own signers. *)
Lemma batch_read_ceilings_witness :
  ReadsAreBounded /\ SectionsFitBuffer /\
  BatchDecoded pairwise 1 2 3 pairwiseM pairwiseS pairwiseK /\
  (exists calls,
     snd (doEd25519BatchVerify 1 2 3 pairwise) = logs (batchReads 1 2 3 ++ calls) pairwise /\
     forallb isEdVerify calls = true) /\
  sections_size pairwiseM <= 33555456 /\
  sections_size pairwiseS <= 17408 /\
  sections_size pairwiseK <= 9216.
Proof.
  pose proof (batch_read_ceilings Reference_reads_bounded Reference_sections_fit
                pairwise_decoded) as (_ & T & (A & B & C) & _).
  split; [exact Reference_reads_bounded|]. split; [exact Reference_sections_fit|].
  split; [exact pairwise_decoded|]. split; [exact T|]. split; [exact A|].
  split; [exact B | exact C].
Defined.

(** C4 as stated fails.  A single message under 257 keys, in regions of 4,
    1285 and 1285 bytes, is read, accepted and verified 257 times; and a
    65-byte signature with a 33-byte public key, in regions of 69 and 37
    bytes, reaches [ed.verify] as they are. *)
Lemma batch_ceilings_counterexample :
  (BatchDecoded oversizedCount 1 2 3 [[]] manyKeys manyKeys /\
   length manyKeys = 257%nat /\
   fst (doEd25519BatchVerify 1 2 3 oversizedCount) = Return ED25519_VERIFY_CODE_VALID /\
   length (edVerifyCalls (trace (snd (doEd25519BatchVerify 1 2 3 oversizedCount)))) = 257%nat) /\
  (BatchDecoded oversizedItems 1 2 3 [longMessage] [longSignature] [longKey] /\
   len longSignature = 65 /\ len longKey = 33 /\
   doEd25519BatchVerify 1 2 3 oversizedItems
   = (Return ED25519_VERIFY_CODE_VALID,
      logs (batchReads 1 2 3 ++ [EvEdVerify longSignature longMessage longKey])
        oversizedItems)).
Proof.
  split.
  - split; [decoded_by_evaluation [@nil byte] manyKeys manyKeys|].
    split; [by_evaluation|]. split; by_evaluation.
  - split; [decoded_by_evaluation [longMessage] [longSignature] [longKey]|].
    split; [by_evaluation|]. split; by_evaluation.
Qed.



(** C6 on the address "AQI=", which the reference codec refuses, and on
    the empty address, answered at pointer 10. *)
Lemma addr_canonicalize_codec_failure_witness :
  (readRegion (memory addresses) 2 MAX_LENGTH_HUMAN_ADDRESS = Return (b "AQI=") /\
   canonicalAddress (toString_utf8 (b "AQI="))
     = Throw (BackendError "not a canonical address encoding") /\
   doAddrCanonicalize 2 9 addresses
   = (Throw (BackendError "not a canonical address encoding"),
      logs [EvReadRegion 2 MAX_LENGTH_HUMAN_ADDRESS;
            EvCanonicalAddress (toString_utf8 (b "AQI="))] addresses)) /\
  (readRegion (memory addresses) 1 MAX_LENGTH_HUMAN_ADDRESS = Return [] /\
   exists m,
     doAddrCanonicalize 1 9 addresses
     = (Return 10,
        logs [EvAllocate 14; EvWriteRegion 10 (utf8_literal "Input is empty")]
          (setMemory m (logs [EvReadRegion 1 MAX_LENGTH_HUMAN_ADDRESS] addresses))) /\
     Reference.lookup m 10 = Some (utf8_literal "Input is empty")).
Proof.
  assert (R : readRegion (memory addresses) 2 MAX_LENGTH_HUMAN_ADDRESS = Return (b "AQI="))
    by reflexivity.
  assert (R1 : readRegion (memory addresses) 1 MAX_LENGTH_HUMAN_ADDRESS = Return [])
    by reflexivity.
  assert (C : canonicalAddress (toString_utf8 (b "AQI="))
              = Throw (BackendError "not a canonical address encoding"))
    by reflexivity.
  split.
  - split; [exact R|]. split; [exact C|].
    apply (proj1 (addr_canonicalize_codec_failure addresses 2 9 R));
      [discriminate | exact C].
  - split; [exact R1|]. eexists. split.
    + eapply (proj2 (proj1 (proj2 (addr_canonicalize_codec_failure addresses 1 9 R1))
                       eq_refl)).
      * reflexivity.
      * discriminate.
      * reflexivity.
    + reflexivity.
Defined.

(** C6 as stated fails.  The address "AQI=" is one on which the codec's
    [canonicalAddress] fails; [addr_canonicalize] does not return a pointer
    to an error message for it, it throws what the codec threw. *)
Lemma addr_canonicalize_counterexample :
  readRegion (memory addresses) 2 MAX_LENGTH_HUMAN_ADDRESS = Return (b "AQI=") /\
  faulted (canonicalAddress (toString_utf8 (b "AQI="))) /\
  fst (doAddrCanonicalize 2 9 addresses)
    = Throw (BackendError "not a canonical address encoding") /\
  ~ in_band (fst (doAddrCanonicalize 2 9 addresses)) /\
  memory (snd (doAddrCanonicalize 2 9 addresses)) = memory addresses.
Proof.
  split; [reflexivity|].
  split; [exists (BackendError "not a canonical address encoding"); reflexivity|].
  split; [reflexivity|]. split; [|reflexivity].
  intros [p Hp]. vm_compute in Hp. discriminate Hp.
Qed.

(** C7 on a 64-byte signature with the recovery id 7. *)
Lemma secp256k1_recover_failure_witness :
  readRegion (memory secpWorld) 1 MESSAGE_HASH_MAX_LEN = Return hash32 /\
  readRegion (memory secpWorld) 2 ECDSA_SIGNATURE_LEN = Return (hash32 ++ hash32) /\
  length (hash32 ++ hash32) = 64%nat /\
  secp_recoverPublicKey (bigint_be hash32) (bigint_be hash32) 7 hash32
    = Throw (LibraryError "cannot recover a public key") /\
  doSecp256k1RecoverPubkey 1 2 7 secpWorld
  = (Throw (LibraryError "cannot recover a public key"),
     logs [EvReadRegion 1 MESSAGE_HASH_MAX_LEN;
           EvReadRegion 2 ECDSA_SIGNATURE_LEN;
           EvSecpRecover (bigint_be hash32) (bigint_be hash32) 7 hash32] secpWorld).
Proof.
  split; [reflexivity|]. split; [reflexivity|]. split; [reflexivity|].
  split; [reflexivity|].
  apply (@secp256k1_recover_failure Reference.env secpWorld 1 2 7 hash32 (hash32 ++ hash32)
           (LibraryError "cannot recover a public key") eq_refl eq_refl eq_refl eq_refl).
Defined.

(** C7 as stated fails.  With the recovery id 7 the library's recovery
    fails; [secp256k1_recover_pubkey] hands the guest nothing in band, it
    throws what the library threw, as it throws the region error of a
    pointer that names no region. *)
Lemma secp256k1_recover_counterexample :
  readRegion (memory secpWorld) 2 ECDSA_SIGNATURE_LEN = Return (hash32 ++ hash32) /\
  length (hash32 ++ hash32) = 64%nat /\
  faulted (secp_recoverPublicKey (bigint_be hash32) (bigint_be hash32) 7 hash32) /\
  fst (doSecp256k1RecoverPubkey 1 2 7 secpWorld)
    = Throw (LibraryError "cannot recover a public key") /\
  ~ in_band (fst (doSecp256k1RecoverPubkey 1 2 7 secpWorld)) /\
  fst (doSecp256k1RecoverPubkey 8 2 7 secpWorld)
    = Throw (RegionError "no region at this pointer").
Proof.
  split; [reflexivity|]. split; [reflexivity|].
  split; [exists (LibraryError "cannot recover a public key"); reflexivity|].
  split; [by_evaluation|]. split; [|by_evaluation].
  intros [p Hp]. vm_compute in Hp. discriminate Hp.
Qed.

(** C8 on the same hash, signature and key at other pointers of another
    world, and likewise for ed25519. *)
Lemma verify_deterministic_and_pure_witness :
  fst (doSecp256k1Verify 1 2 3 secpWorld) = fst (doSecp256k1Verify 21 22 23 secpWorld') /\
  fst (doEd25519Verify 1 2 3 edWorld) = fst (doEd25519Verify 31 32 33 edWorld') /\
  sameState secpWorld' (snd (doSecp256k1Verify 21 22 23 secpWorld')) /\
  sameState edWorld' (snd (doEd25519Verify 31 32 33 edWorld')).
Proof.
  pose proof (@verify_deterministic_and_pure Reference.env) as (D1 & D2 & P1 & P2).
  split; [|split; [|split]].
  - apply (D1 secpWorld secpWorld' 1 2 3 21 22 23 hash32 (hash32 ++ hash32) goodKey);
      reflexivity.
  - apply (D2 edWorld edWorld' 1 2 3 31 32 33 (b "m") (b "am") (b "a")); reflexivity.
  - apply P1.
  - apply P2.
Defined.

End ReferenceExamples.

(** * Further properties of the imports *)

(** ** What an import leaves alone *)

Section Frames.

Context {env : Collaborators}.


Lemma keepsMemory_bind {A B : Type} (m : Host A) (k : A -> Host B) :
  keepsMemory m -> (forall a, keepsMemory (k a)) -> keepsMemory (bind m k).
Proof.
  intros Hm Hk w. unfold bind. specialize (Hm w).
  destruct (m w) as [[a|e] w']; cbn [snd] in *; [rewrite Hk|]; exact Hm.
Qed.




Lemma keepsMemory_ret {A : Type} (a : A) : keepsMemory (ret a).
Proof. intros w. reflexivity. Qed.

Lemma keepsMemory_throw {A : Type} (e : Exn) : keepsMemory (throw (A := A) e).
Proof. intros w. reflexivity. Qed.

Lemma keepsMemory_lift {A : Type} (o : Outcome A) : keepsMemory (lift o).
Proof. intros w. reflexivity. Qed.


Lemma keepsMemory_read (ptr maxLength : Z) : keepsMemory (callReadRegion ptr maxLength).
Proof. intros w. reflexivity. Qed.


Lemma keepsMemory_storageGet (key : bytes) : keepsMemory (callStorageGet key).
Proof. intros w. reflexivity. Qed.

Lemma keepsMemory_storageSet (key value : bytes) : keepsMemory (callStorageSet key value).
Proof. intros w. reflexivity. Qed.

Lemma keepsMemory_storageRemove (key : bytes) : keepsMemory (callStorageRemove key).
Proof. intros w. reflexivity. Qed.


Lemma keepsMemory_edVerify (signature message pubkey : bytes) :
  keepsMemory (callEdVerify signature message pubkey).
Proof. intros w. reflexivity. Qed.


Lemma keepsMemory_verifyLoop (remaining : nat) :
  forall (i : nat) (messages signatures publicKeys : list bytes),
    keepsMemory (verifyLoop remaining i messages signatures publicKeys).
Proof.
  induction remaining as [|remaining IH]; intros i messages signatures publicKeys;
    cbn [verifyLoop]; [apply keepsMemory_ret|].
  destruct (nth_error signatures i), (nth_error messages i), (nth_error publicKeys i);
    try apply keepsMemory_throw.
  apply keepsMemory_bind; [apply keepsMemory_edVerify|].
  intros [|]; [apply IH | apply keepsMemory_ret].
Qed.


Lemma keepsMemory_batch_tail (messages signatures publicKeys : list bytes) :
  keepsMemory
    (match expandBatch messages signatures publicKeys with
     | None => ret ED25519_VERIFY_CODE_INVALID
     | Some (messages', publicKeys') =>
         if negb (length messages' =? length signatures)%nat
            || negb (length messages' =? length publicKeys')%nat
         then ret ED25519_VERIFY_CODE_INVALID
         else verifyLoop (length messages') 0 messages' signatures publicKeys'
     end).
Proof.
  destruct (expandBatch messages signatures publicKeys) as [[M' K']|];
    [|apply keepsMemory_ret].
  destruct (negb _ || negb _); [apply keepsMemory_ret | apply keepsMemory_verifyLoop].
Qed.

(** [writeToContract] hands back a pointer only when the allocator gave
    one other than 0 and the write went through. *)
Lemma writeToContract_returns (input : bytes) (w : World) (ptr : Z) :
  fst (writeToContract input w) = Return ptr ->
  ptr <> 0 /\
  exists m1 m2,
    allocate (memory w) (len input) = Return (ptr, m1) /\
    writeRegion m1 ptr input = Return m2 /\
    snd (writeToContract input w)
    = logs [EvAllocate (len input); EvWriteRegion ptr input] (setMemory m2 w).
Proof.
  unfold writeToContract, bind, callAllocate.
  destruct (allocate (memory w) (len input)) as [[p m1]|e]; [|discriminate].
  destruct (p =? 0) eqn:Z0; [discriminate|]. apply Z.eqb_neq in Z0.
  unfold callWriteRegion. cbn [memory logs setMemory].
  destruct (writeRegion m1 p input) as [m2|e] eqn:W; [|discriminate].
  cbn [fst snd ret]. intros H; injection H as <-.
  split; [exact Z0|]. exists m1, m2. split; [reflexivity|]. split; [exact W|].
  unfold logs, setMemory; cbn. now rewrite <- app_assoc.
Qed.

End Frames.


Ltac frame_memory :=
  repeat first
    [ apply keepsMemory_ret | apply keepsMemory_throw | apply keepsMemory_lift
    | apply keepsMemory_read | apply keepsMemory_storageGet
    | apply keepsMemory_storageSet | apply keepsMemory_storageRemove
    | apply keepsMemory_edVerify | apply keepsMemory_batch_tail
    | (apply keepsMemory_bind; [|intros ?])
    | match goal with
      | |- keepsMemory (if ?c then _ else _) => destruct c
      | |- keepsMemory (match ?x with _ => _ end) => destruct x
      end ].

(** ** The storage bridge and [writeToContract] *)

Section StorageTheorems.

Context {env : Collaborators} {svc : Services}.

(** X1.  [writeToContract] never hands back the pointer 0: when the guest
    allocator answers 0 it throws [CommunicationError.zeroAddress()] and
    issues no region write, so a 0 returned by an import is never a
    pointer. *)
Theorem writeToContract_never_zero (input : bytes) (w : World) :
  (forall ptr, fst (writeToContract input w) = Return ptr -> ptr <> 0) /\
  (forall m1,
     allocate (memory w) (len input) = Return (0, m1) ->
     writeToContract input w
     = (Throw CommunicationError_zeroAddress,
        logs [EvAllocate (len input)] (setMemory m1 w))).
Proof.
  split.
  - intros ptr H. exact (proj1 (writeToContract_returns input w H)).
  - intros m1 H. unfold writeToContract, bind, callAllocate. rewrite H. reflexivity.
Qed.

Lemma doDbRead_run (w : World) (keyPtr : Z) (key : bytes) :
  readRegion (memory w) keyPtr MAX_LENGTH_DB_KEY = Return key ->
  doDbRead keyPtr w
  = match storage_get (storage w) key with
    | Some v =>
        writeToContract v (logs [EvReadRegion keyPtr MAX_LENGTH_DB_KEY; EvStorageGet key] w)
    | None => (Return 0, logs [EvReadRegion keyPtr MAX_LENGTH_DB_KEY; EvStorageGet key] w)
    end.
Proof.
  intros Hr. unfold doDbRead. erewrite run_read by exact Hr.
  unfold bind, callStorageGet. cbn [storage logs].
  destruct (storage_get (storage w) key) as [v|];
    unfold ret, logs; cbn; now rewrite <- app_assoc.
Qed.

(** X2.  Once the key region is read, [db_read] returns 0 exactly when the
    store has no entry for the key; in that case nothing is allocated or
    written. *)
Theorem db_read_sentinel (w : World) (keyPtr : Z) (key : bytes) :
  readRegion (memory w) keyPtr MAX_LENGTH_DB_KEY = Return key ->
  (fst (doDbRead keyPtr w) = Return 0 <-> storage_get (storage w) key = None) /\
  (storage_get (storage w) key = None ->
     doDbRead keyPtr w
     = (Return 0, logs [EvReadRegion keyPtr MAX_LENGTH_DB_KEY; EvStorageGet key] w)).
Proof.
  intros Hr. rewrite (doDbRead_run w keyPtr Hr).
  destruct (storage_get (storage w) key) as [v|] eqn:G.
  - split; [split|]; intros H; try discriminate H.
    exfalso. apply writeToContract_returns in H. now destruct H as [H _].
  - split; [split; reflexivity|]. reflexivity.
Qed.

(** X3.  [db_write] followed by [db_read] of the same key, through any
    pointer to it, hands back the value that was written, provided the
    store returns what was set and the guest allocator and the write of
    the result succeed. *)
Theorem db_write_then_read
  (w : World) (keyPtr valuePtr keyPtr' : Z) (key value : bytes)
  (ptr : Z) (m1 m2 : Memory) :
  readRegion (memory w) keyPtr MAX_LENGTH_DB_KEY = Return key ->
  readRegion (memory w) valuePtr MAX_LENGTH_DB_VALUE = Return value ->
  readRegion (memory w) keyPtr' MAX_LENGTH_DB_KEY = Return key ->
  storage_get (storage_set (storage w) key value) key = Some value ->
  allocate (memory w) (len value) = Return (ptr, m1) ->
  ptr <> 0 ->
  writeRegion m1 ptr value = Return m2 ->
  fst (doDbWrite keyPtr valuePtr w) = Return tt /\
  fst (doDbRead keyPtr' (snd (doDbWrite keyPtr valuePtr w))) = Return ptr /\
  memory (snd (doDbRead keyPtr' (snd (doDbWrite keyPtr valuePtr w)))) = m2.
Proof.
  intros Hk Hv Hk' Hget Ha Hp Hw.
  assert (W : doDbWrite keyPtr valuePtr w
              = (Return tt,
                 logs [EvReadRegion keyPtr MAX_LENGTH_DB_KEY;
                       EvReadRegion valuePtr MAX_LENGTH_DB_VALUE;
                       EvStorageSet key value]
                   (setStorage (storage_set (storage w) key value) w))).
  { unfold doDbWrite. erewrite run_read by exact Hk. erewrite run_read by exact Hv.
    unfold callStorageSet, logs, setStorage; cbn. now rewrite <- !app_assoc. }
  rewrite W. cbn [fst snd]. split; [reflexivity|].
  erewrite doDbRead_run by exact Hk'. cbn [storage logs setStorage]. rewrite Hget.
  erewrite writeToContract_ok by eassumption. split; reflexivity.
Qed.

(** X4.  [db_remove] followed by [db_read] of the same key returns 0,
    provided the store has no entry for a key it removed. *)
Theorem db_remove_then_read (w : World) (keyPtr keyPtr' : Z) (key : bytes) :
  readRegion (memory w) keyPtr MAX_LENGTH_DB_KEY = Return key ->
  readRegion (memory w) keyPtr' MAX_LENGTH_DB_KEY = Return key ->
  storage_get (storage_remove (storage w) key) key = None ->
  fst (doDbRemove keyPtr w) = Return tt /\
  fst (doDbRead keyPtr' (snd (doDbRemove keyPtr w))) = Return 0 /\
  memory (snd (doDbRead keyPtr' (snd (doDbRemove keyPtr w)))) = memory w.
Proof.
  intros Hk Hk' Hget.
  assert (R : doDbRemove keyPtr w
              = (Return tt,
                 logs [EvReadRegion keyPtr MAX_LENGTH_DB_KEY; EvStorageRemove key]
                   (setStorage (storage_remove (storage w) key) w))).
  { unfold doDbRemove. erewrite run_read by exact Hk.
    unfold callStorageRemove, logs, setStorage; cbn. now rewrite <- !app_assoc. }
  rewrite R. cbn [fst snd]. split; [reflexivity|].
  erewrite doDbRead_run by exact Hk'. cbn [storage logs setStorage]. rewrite Hget.
  split; reflexivity.
Qed.



(** X7.  [db_write], [db_remove] and batch verification never change guest
    memory: they neither allocate in it nor write to it, on any path. *)
Theorem guest_memory_is_left_alone :
  (forall keyPtr valuePtr, keepsMemory (doDbWrite keyPtr valuePtr)) /\
  (forall keyPtr, keepsMemory (doDbRemove keyPtr)) /\
  (forall messagesPtr signaturesPtr publicKeysPtr,
     keepsMemory (doEd25519BatchVerify messagesPtr signaturesPtr publicKeysPtr)).
Proof.
  repeat apply conj; intros; unfold doDbWrite, doDbRemove, doEd25519BatchVerify;
    frame_memory.
Qed.

End StorageTheorems.

(** ** Address imports *)

Section AddressExtras.

Context {env : Collaborators} {svc : Services}.

(** X8.  Once the source region is read, [addr_validate] returns 0 exactly
    when the input is not empty and equals its re-encoded form: a returned
    0 is never the pointer of an error message. *)
Theorem addr_validate_zero_iff (w : World) (sourcePtr : Z) (sourceData : bytes) :
  readRegion (memory w) sourcePtr MAX_LENGTH_HUMAN_ADDRESS = Return sourceData ->
  (fst (doAddrValidate sourcePtr w) = Return 0
   <-> sourceData <> [] /\
       nomalized (toString_utf8 sourceData) = toString_utf8 sourceData).
Proof.
  intros Hr. unfold doAddrValidate. erewrite run_read by exact Hr.
  destruct sourceData as [|x rest].
  - cbn [len length Z.of_nat Z.eqb]. split.
    + intros H. apply writeToContract_returns in H. now destruct H as [H _].
    + intros [H _]. contradiction.
  - rewrite (len_cons_eqb (b := x :: rest)) by discriminate. cbv zeta.
    unfold strict_neq.
    destruct (JsString_eq_dec (nomalized (toString_utf8 (x :: rest)))
                (toString_utf8 (x :: rest))) as [E|N].
    + split; [intros _; split; [discriminate | exact E] | reflexivity].
    + split.
      * intros H. apply writeToContract_returns in H. now destruct H as [H _].
      * intros [_ E]. contradiction.
Qed.

(** X9.  Once the source region is read, [addr_canonicalize] returns 0
    exactly when the input is not empty, the backend codec returned
    canonical bytes for it and those bytes were written to the destination
    region; an empty input is answered with the string "Input is empty"
    without the codec being called. *)
Theorem addr_canonicalize_zero_iff
  (w : World) (sourcePtr destinationPtr : Z) (sourceData : bytes) :
  readRegion (memory w) sourcePtr MAX_LENGTH_HUMAN_ADDRESS = Return sourceData ->
  (fst (doAddrCanonicalize sourcePtr destinationPtr w) = Return 0
   <-> sourceData <> [] /\
       exists canonical m',
         canonicalAddress (toString_utf8 sourceData) = Return canonical /\
         writeRegion (memory w) destinationPtr canonical = Return m') /\
  (forall canonical m',
     sourceData <> [] ->
     canonicalAddress (toString_utf8 sourceData) = Return canonical ->
     writeRegion (memory w) destinationPtr canonical = Return m' ->
     doAddrCanonicalize sourcePtr destinationPtr w
     = (Return 0,
        logs [EvReadRegion sourcePtr MAX_LENGTH_HUMAN_ADDRESS;
              EvCanonicalAddress (toString_utf8 sourceData);
              EvWriteRegion destinationPtr canonical] (setMemory m' w))) /\
  (sourceData = [] ->
     doAddrCanonicalize sourcePtr destinationPtr w
     = writeToContract (utf8_literal "Input is empty")
         (logs [EvReadRegion sourcePtr MAX_LENGTH_HUMAN_ADDRESS] w)).
Proof.
  intros Hr. unfold doAddrCanonicalize. erewrite run_read by exact Hr.
  destruct sourceData as [|x rest].
  - cbn [len length Z.of_nat Z.eqb]. split; [|split].
    + split.
      * intros H. apply writeToContract_returns in H. now destruct H as [H _].
      * intros [H _]. contradiction.
    + intros canonical m' H. contradiction.
    + reflexivity.
  - rewrite (len_cons_eqb (b := x :: rest)) by discriminate.
    unfold bind, callCanonicalAddress, callWriteRegion, ret. cbn [memory logs].
    destruct (canonicalAddress (toString_utf8 (x :: rest))) as [c|e].
    + destruct (writeRegion (memory w) destinationPtr c) as [m'|e] eqn:W.
      * split; [|split].
        -- split; [|reflexivity].
           intros _. split; [discriminate|]. now exists c, m'.
        -- intros canonical m'' _ Hc Hw. injection Hc as <-.
           rewrite W in Hw. injection Hw as <-.
           unfold logs, setMemory; cbn. now rewrite <- !app_assoc.
        -- discriminate.
      * split; [|split].
        -- split; [discriminate|].
           intros [_ (c' & m' & Hc & Hw)]. injection Hc as <-. congruence.
        -- intros canonical m'' _ Hc Hw. injection Hc as <-. congruence.
        -- discriminate.
    + split; [|split].
      * split; [discriminate|]. intros [_ (c' & m' & Hc & _)]. discriminate.
      * intros canonical m'' _ Hc. discriminate.
      * discriminate.
Qed.

End AddressExtras.

(** ** Key recovery and the single verifications *)

Section CryptoExtras.

Context {env : Collaborators}.

Lemma bigint_fold (b : bytes) :
  forall acc : Z,
    fold_left (fun a x => a * 256 + Z.of_N (Byte.to_N x)) b acc
    = acc * 256 ^ len b + bigint_be b.
Proof.
  unfold bigint_be, len.
  induction b as [|x b IH]; intros acc.
  - cbn. lia.
  - cbn [fold_left length]. rewrite IH. rewrite (IH (0 * 256 + _)).
    rewrite Nat2Z.inj_succ, Z.pow_succ_r by lia. ring.
Qed.

Lemma bigint_be_app (a b : bytes) :
  bigint_be (a ++ b) = bigint_be a * 256 ^ len b + bigint_be b.
Proof. unfold bigint_be at 1. rewrite fold_left_app. apply bigint_fold. Qed.

Lemma bigint_be_bound (b : bytes) : 0 <= bigint_be b < 256 ^ len b.
Proof.
  induction b as [|x b IH].
  - cbn. lia.
  - change (x :: b) with ([x] ++ b). rewrite bigint_be_app.
    assert (L : len ([x] ++ b) = Z.succ (len b)) by (unfold len; cbn [app length]; lia).
    rewrite L, Z.pow_succ_r by (unfold len; lia).
    assert (X : 0 <= bigint_be [x] <= 255).
    { unfold bigint_be; cbn. pose proof (Byte.to_N_bounded x). lia. }
    assert (P : 0 < 256 ^ len b) by (apply Z.pow_pos_nonneg; unfold len; lia).
    nia.
Qed.

(** X10.  A signature region of at most 32 bytes makes
    [secp256k1_recover_pubkey] throw the [SyntaxError] of [BigInt("0x")]:
    one of the two halves is empty.  The library is not called and nothing
    is allocated. *)
Theorem secp256k1_recover_short_signature
  (w : World) (hp sp recoverParam : Z) (hash sig : bytes) :
  readRegion (memory w) hp MESSAGE_HASH_MAX_LEN = Return hash ->
  readRegion (memory w) sp ECDSA_SIGNATURE_LEN = Return sig ->
  (length sig <= 32)%nat ->
  doSecp256k1RecoverPubkey hp sp recoverParam w
  = (Throw (SyntaxError "Cannot convert 0x to a BigInt"),
     logs [EvReadRegion hp MESSAGE_HASH_MAX_LEN; EvReadRegion sp ECDSA_SIGNATURE_LEN] w).
Proof.
  intros H1 H2 L. unfold doSecp256k1RecoverPubkey.
  erewrite run_read by exact H1. erewrite run_read by exact H2.
  rewrite logs_logs. cbn [app].
  destruct sig as [|x rest]; [reflexivity|].
  erewrite run_lift by (apply BigInt_of_hex_nonempty; discriminate).
  unfold subarray. rewrite (skipn_all2 (n := 32)) by exact L. reflexivity.
Qed.

(** X11.  For a signature of 33 to 64 bytes the library is handed [r], the
    big-endian number of the first 32 bytes, and [s], that of the rest:
    [r] is below 2^256, [s] below 256 to the number of remaining bytes,
    and together they spell the whole signature.  The import checks no
    more of the signature than that; what the library returns is handed to
    the guest by [writeToContract], what it throws is thrown. *)
Theorem secp256k1_recover_splits_signature
  (w : World) (hp sp recoverParam : Z) (hash sig : bytes) :
  readRegion (memory w) hp MESSAGE_HASH_MAX_LEN = Return hash ->
  readRegion (memory w) sp ECDSA_SIGNATURE_LEN = Return sig ->
  (32 < length sig <= 64)%nat ->
  let r := bigint_be (firstn 32 sig) in
  let s := bigint_be (skipn 32 sig) in
  let w' := logs [EvReadRegion hp MESSAGE_HASH_MAX_LEN;
                  EvReadRegion sp ECDSA_SIGNATURE_LEN;
                  EvSecpRecover r s recoverParam hash] w in
  0 <= r < 2 ^ 256 /\
  0 <= s < 256 ^ (len sig - 32) /\
  r * 256 ^ (len sig - 32) + s = bigint_be sig /\
  doSecp256k1RecoverPubkey hp sp recoverParam w
  = match secp_recoverPublicKey r s recoverParam hash with
    | Return pubkey => writeToContract pubkey w'
    | Throw e => (Throw e, w')
    end.
Proof.
  intros H1 H2 L r s w'.
  assert (L1 : len (firstn 32 sig) = 32)
    by (unfold len; rewrite length_firstn; lia).
  assert (L2 : len (skipn 32 sig) = len sig - 32)
    by (unfold len; rewrite length_skipn; lia).
  split; [|split; [|split]].
  - pose proof (bigint_be_bound (firstn 32 sig)) as B. rewrite L1 in B.
    change (256 ^ 32) with (2 ^ 256) in B. exact B.
  - pose proof (bigint_be_bound (skipn 32 sig)) as B. now rewrite L2 in B.
  - transitivity (bigint_be (firstn 32 sig ++ skipn 32 sig));
      [|now rewrite firstn_skipn].
    rewrite bigint_be_app, L2. reflexivity.
  - unfold doSecp256k1RecoverPubkey.
    erewrite run_read by exact H1. erewrite run_read by exact H2.
    assert (S1 : subarray sig 0 32 = firstn 32 sig) by reflexivity.
    assert (S2 : subarray sig 32 64 = skipn 32 sig).
    { unfold subarray. apply firstn_all2. rewrite length_skipn. lia. }
    erewrite run_lift by (apply BigInt_of_hex_nonempty, subarray_nonempty; lia).
    erewrite run_lift by (apply BigInt_of_hex_nonempty, subarray_nonempty; lia).
    rewrite S1, S2. fold r s. unfold bind, callSecpRecover.
    rewrite !logs_logs. cbn [app]. fold w'.
    destruct (secp_recoverPublicKey r s recoverParam hash); reflexivity.
Qed.

Lemma verifyLoop_verdict (remaining : nat) :
  forall (i : nat) (messages signatures publicKeys : list bytes) (w : World) (code : Z),
    fst (verifyLoop remaining i messages signatures publicKeys w) = Return code ->
    isVerdict code.
Proof.
  induction remaining as [|remaining IH]; intros i messages signatures publicKeys w code;
    cbn [verifyLoop].
  - intros H; injection H as <-. now left.
  - destruct (nth_error signatures i), (nth_error messages i), (nth_error publicKeys i);
      try discriminate.
    unfold bind, callEdVerify. destruct (ed_verify _ _ _) as [[|]|e]; try discriminate.
    + apply IH.
    + intros H; injection H as <-. now right.
Qed.

(** X12.  Whatever the regions hold, a value returned by
    [secp256k1_verify], [ed25519_verify] or [ed25519_batch_verify] is 0 or
    1. *)
Theorem verify_codes_are_verdicts (w : World) (p1 p2 p3 code : Z) :
  (fst (doSecp256k1Verify p1 p2 p3 w) = Return code -> isVerdict code) /\
  (fst (doEd25519Verify p1 p2 p3 w) = Return code -> isVerdict code) /\
  (fst (doEd25519BatchVerify p1 p2 p3 w) = Return code -> isVerdict code).
Proof.
  split; [|split].
  - unfold doSecp256k1Verify, bind, callReadRegion, callSecpVerify, ret.
    cbn [memory logs].
    repeat match goal with
           | |- context [match ?x with Return _ => _ | Throw _ => _ end] => destruct x
           end; cbn [fst]; try discriminate.
    intros H; injection H as <-. destruct a2; [now left | now right].
  - unfold doEd25519Verify, bind, callReadRegion, callEdVerify, ret.
    cbn [memory logs].
    repeat match goal with
           | |- context [match ?x with Return _ => _ | Throw _ => _ end] => destruct x
           end; cbn [fst]; try discriminate.
    intros H; injection H as <-. destruct a2; [now left | now right].
  - unfold doEd25519BatchVerify, bind, callReadRegion, lift, ret.
    cbn [memory logs].
    repeat match goal with
           | |- context [match ?x with Return _ => _ | Throw _ => _ end] => destruct x
           end; cbn [fst]; try discriminate.
    destruct (expandBatch a2 a3 a4) as [[M' K']|].
    + destruct (negb _ || negb _).
      * intros H; injection H as <-. now right.
      * apply verifyLoop_verdict.
    + intros H; injection H as <-. now right.
Qed.

(** X13.  When one of the three regions of [secp256k1_verify] or
    [ed25519_verify] cannot be read, the import throws and the log gains
    no call of a signature library: the libraries only ever see bytes that
    were read from the three regions. *)
Theorem verify_reads_before_library (w : World) (p1 p2 p3 : Z) :
  (~ (exists hash signature pubkey,
        readRegion (memory w) p1 MESSAGE_HASH_MAX_LEN = Return hash /\
        readRegion (memory w) p2 ECDSA_SIGNATURE_LEN = Return signature /\
        readRegion (memory w) p3 ECDSA_PUBKEY_MAX_LEN = Return pubkey) ->
   faulted (fst (doSecp256k1Verify p1 p2 p3 w)) /\
   filter isLibraryCall (trace (snd (doSecp256k1Verify p1 p2 p3 w)))
   = filter isLibraryCall (trace w)) /\
  (~ (exists message signature pubkey,
        readRegion (memory w) p1 MAX_LENGTH_ED25519_MESSAGE = Return message /\
        readRegion (memory w) p2 MAX_LENGTH_ED25519_SIGNATURE = Return signature /\
        readRegion (memory w) p3 EDDSA_PUBKEY_LEN = Return pubkey) ->
   faulted (fst (doEd25519Verify p1 p2 p3 w)) /\
   filter isLibraryCall (trace (snd (doEd25519Verify p1 p2 p3 w)))
   = filter isLibraryCall (trace w)).
Proof.
  split; intros N.
  - unfold doSecp256k1Verify, bind, callReadRegion. cbn [memory logs].
    destruct (readRegion (memory w) p1 MESSAGE_HASH_MAX_LEN) as [h|e1].
    2:{ cbn. split; [now exists e1|]. rewrite filter_app. cbn. apply app_nil_r. }
    destruct (readRegion (memory w) p2 ECDSA_SIGNATURE_LEN) as [s|e2].
    2:{ cbn. split; [now exists e2|]. rewrite !filter_app. cbn. now rewrite !app_nil_r. }
    destruct (readRegion (memory w) p3 ECDSA_PUBKEY_MAX_LEN) as [k|e3].
    2:{ cbn. split; [now exists e3|]. rewrite !filter_app. cbn. now rewrite !app_nil_r. }
    exfalso. apply N. now exists h, s, k.
  - unfold doEd25519Verify, bind, callReadRegion. cbn [memory logs].
    destruct (readRegion (memory w) p1 MAX_LENGTH_ED25519_MESSAGE) as [m|e1].
    2:{ cbn. split; [now exists e1|]. rewrite filter_app. cbn. apply app_nil_r. }
    destruct (readRegion (memory w) p2 MAX_LENGTH_ED25519_SIGNATURE) as [s|e2].
    2:{ cbn. split; [now exists e2|]. rewrite !filter_app. cbn. now rewrite !app_nil_r. }
    destruct (readRegion (memory w) p3 EDDSA_PUBKEY_LEN) as [k|e3].
    2:{ cbn. split; [now exists e3|]. rewrite !filter_app. cbn. now rewrite !app_nil_r. }
    exfalso. apply N. now exists m, s, k.
Qed.

End CryptoExtras.

(** ** More on batch verification *)

Section BatchExtras.

Context {env : Collaborators}.

Lemma verifyTriples_prefix (ts : list Triple) (w : World) :
  exists n, snd (verifyTriples ts w) = logs (map verifyEvent (firstn n ts)) w.
Proof.
  revert w. induction ts as [|[[s m] k] ts IH]; intros w.
  - exists 0%nat. cbn. now rewrite logs_nil.
  - cbn [verifyTriples]. unfold bind, callEdVerify.
    destruct (ed_verify s m k) as [[|]|e].
    + destruct (IH (logs [EvEdVerify s m k] w)) as [n E].
      exists (Datatypes.S n). rewrite E. now rewrite logs_logs.
    + now exists 1%nat.
    + now exists 1%nat.
Qed.

Lemma verifyTriples_first_throw
  (pre post : list Triple) (t : Triple) (e : Exn) (w : World) :
  Forall passes pre -> throwsOn e t ->
  verifyTriples (pre ++ t :: post) w
  = (Throw e, logs (map verifyEvent (pre ++ [t])) w).
Proof.
  intros H Ht. revert w. induction H as [|[[s m] k] ts Hp _ IH]; intros w.
  - destruct t as [[s m] k]. cbn [app verifyTriples map verifyEvent].
    unfold bind, callEdVerify. simpl in Ht. now rewrite Ht.
  - cbn [app verifyTriples map verifyEvent]. unfold bind, callEdVerify.
    simpl in Hp. rewrite Hp. rewrite IH. now rewrite logs_logs.
Qed.

Lemma verifyTriples_outcome_any_world (ts : list Triple) :
  forall w w' : World, fst (verifyTriples ts w) = fst (verifyTriples ts w').
Proof.
  induction ts as [|[[s m] k] ts IH]; intros w w'; [reflexivity|].
  cbn [verifyTriples]. unfold bind, callEdVerify.
  destruct (ed_verify s m k) as [[|]|e]; try reflexivity. apply IH.
Qed.

(** X14.  On readable, decodable regions the [ed.verify] calls of a batch
    are the expanded triples in their order, from the first up to some
    point: no triple is verified twice, out of order, or with arguments
    other than the decoded ones, whether the batch ends in a verdict or in
    an exception. *)
Theorem batch_calls_are_a_prefix (w : World) (mp sp kp : Z) (M S K : list bytes) :
  BatchDecoded w mp sp kp M S K ->
  exists n,
    snd (doEd25519BatchVerify mp sp kp w)
    = logs (batchReads mp sp kp ++ map verifyEvent (firstn n (expandedTriples M S K))) w.
Proof.
  intros H. rewrite (batch_run H). unfold expandedTriples.
  destruct (expandBatch M S K) as [[M' K']|].
  - destruct (verifyTriples_prefix (zip3 S M' K') (logs (batchReads mp sp kp) w)) as [n E].
    exists n. rewrite E. now rewrite logs_logs.
  - exists 0%nat. cbn [snd firstn map]. now rewrite app_nil_r.
Qed.

(** X15.  When the first expanded triple that does not pass makes the
    library throw, the batch import throws that exception; it does not
    answer INVALID, and the triples behind are not verified. *)
Theorem batch_library_fault
  (w : World) (mp sp kp : Z) (M S K : list bytes)
  (pre post : list Triple) (t : Triple) (e : Exn) :
  BatchDecoded w mp sp kp M S K ->
  expandedTriples M S K = pre ++ t :: post ->
  Forall passes pre ->
  throwsOn e t ->
  doEd25519BatchVerify mp sp kp w
  = (Throw e, logs (batchReads mp sp kp ++ map verifyEvent (pre ++ [t])) w).
Proof.
  intros H E Hpre Ht. rewrite (batch_run H). unfold expandedTriples in E.
  destruct (expandBatch M S K) as [[M' K']|].
  - rewrite E. rewrite (@verifyTriples_first_throw pre post t e _ Hpre Ht).
    now rewrite logs_logs.
  - destruct pre; discriminate E.
Qed.

(** X16.  A batch without signatures: the verdict is VALID when there is
    also no public key and at most one message, or no message and at most
    one public key, and INVALID otherwise; in neither case is anything
    verified. *)
Theorem batch_without_signatures (w : World) (mp sp kp : Z) (M K : list bytes) :
  BatchDecoded w mp sp kp M [] K ->
  ((K = [] /\ (length M <= 1)%nat) \/ (M = [] /\ (length K <= 1)%nat) ->
     doEd25519BatchVerify mp sp kp w
     = (Return ED25519_VERIFY_CODE_VALID, logs (batchReads mp sp kp) w)) /\
  (~ ((K = [] /\ (length M <= 1)%nat) \/ (M = [] /\ (length K <= 1)%nat)) ->
     doEd25519BatchVerify mp sp kp w
     = (Return ED25519_VERIFY_CODE_INVALID, logs (batchReads mp sp kp) w)).
Proof.
  intros H. rewrite (batch_run H).
  destruct M as [|m [|m' M]]; destruct K as [|k [|k' K]]; cbn;
    split; intros C; try reflexivity;
    try (exfalso; apply C; cbn; intuition lia);
    try (exfalso; destruct C as [[C1 C2]|[C1 C2]]; cbn in *; try discriminate; lia).
Qed.

(** X17.  A batch of one message, one signature and one public key has the
    outcome of [ed25519_verify] on three regions holding the same bytes. *)
Theorem batch_of_one_is_single_verify
  (w w' : World) (mp sp kp mp' sp' kp' : Z) (message signature pubkey : bytes) :
  BatchDecoded w mp sp kp [message] [signature] [pubkey] ->
  readRegion (memory w') mp' MAX_LENGTH_ED25519_MESSAGE = Return message ->
  readRegion (memory w') sp' MAX_LENGTH_ED25519_SIGNATURE = Return signature ->
  readRegion (memory w') kp' EDDSA_PUBKEY_LEN = Return pubkey ->
  fst (doEd25519BatchVerify mp sp kp w) = fst (doEd25519Verify mp' sp' kp' w').
Proof.
  intros H H1 H2 H3. rewrite (batch_run H), (ed25519_verify_run w' mp' sp' kp' H1 H2 H3).
  cbn. unfold bind, callEdVerify.
  destruct (ed_verify signature message pubkey) as [[|]|e]; reflexivity.
Qed.

Lemma expandedTriples_shared_message (m : bytes) (S K : list bytes) :
  length S = length K ->
  expandedTriples [m] S K = zip3 S (repeat m (length S)) K.
Proof.
  intros L. unfold expandedTriples, expandBatch. cbn [length].
  apply Nat.eqb_eq in L. rewrite L, andb_true_r.
  destruct (1 =? length S)%nat eqn:E; [|reflexivity].
  apply Nat.eqb_eq in E. rewrite <- E. reflexivity.
Qed.

Lemma expandedTriples_pairwise (M S K : list bytes) :
  length M = length S -> length S = length K ->
  expandedTriples M S K = zip3 S M K.
Proof.
  intros L1 L2. unfold expandedTriples.
  now rewrite (expandBatch_pairwise (conj L1 L2)).
Qed.

Lemma expandedTriples_shared_key (k : bytes) (M S : list bytes) :
  length M = length S ->
  expandedTriples M S [k] = zip3 S M (repeat k (length S)).
Proof.
  intros L. unfold expandedTriples, expandBatch. cbn [length].
  apply Nat.eqb_eq in L. rewrite L. cbn [andb].
  destruct (length S =? 1)%nat eqn:E.
  - apply Nat.eqb_eq in E. rewrite E. reflexivity.
  - destruct M as [|m0 [|m1 M]]; cbn [length Nat.eqb andb]; reflexivity.
Qed.

Lemma batch_outcome (w : World) (mp sp kp : Z) (M S K : list bytes) :
  BatchDecoded w mp sp kp M S K ->
  PairwiseShape M S K \/ SharedMessageShape M S K \/ SharedKeyShape M S K ->
  fst (doEd25519BatchVerify mp sp kp w)
  = fst (verifyTriples (expandedTriples M S K) w).
Proof.
  intros H Hs. rewrite (batch_run H). unfold expandedTriples.
  apply expandBatch_accepts in Hs as (M' & K' & E). rewrite E.
  apply verifyTriples_outcome_any_world.
Qed.

(** X18.  Broadcasting is repetition: a batch with one message and as many
    signatures as keys has the outcome of the batch in which that message
    is written out once per signature, and a batch with one key and as
    many messages as signatures has the outcome of the batch in which that
    key is written out once per signature. *)
Theorem batch_broadcast_is_repetition
  (w w' : World) (mp sp kp mp' sp' kp' : Z) (x : bytes) (S : list bytes) :
  (forall K,
     length S = length K ->
     BatchDecoded w mp sp kp [x] S K ->
     BatchDecoded w' mp' sp' kp' (repeat x (length S)) S K ->
     fst (doEd25519BatchVerify mp sp kp w) = fst (doEd25519BatchVerify mp' sp' kp' w')) /\
  (forall M,
     length M = length S ->
     BatchDecoded w mp sp kp M S [x] ->
     BatchDecoded w' mp' sp' kp' M S (repeat x (length S)) ->
     fst (doEd25519BatchVerify mp sp kp w) = fst (doEd25519BatchVerify mp' sp' kp' w')).
Proof.
  split.
  - intros K L H H'.
    rewrite (batch_outcome H) by (right; left; split; [reflexivity | exact L]).
    rewrite (batch_outcome H')
      by (left; split; [apply repeat_length | exact L]).
    rewrite (expandedTriples_shared_message x S K L).
    rewrite (expandedTriples_pairwise _ _ _ (repeat_length x (length S)) L).
    apply verifyTriples_outcome_any_world.
  - intros M L H H'.
    rewrite (batch_outcome H) by (right; right; split; [reflexivity | exact L]).
    rewrite (batch_outcome H')
      by (left; split; [exact L | symmetry; apply repeat_length]).
    rewrite (expandedTriples_shared_key x M S L).
    rewrite (expandedTriples_pairwise _ _ _ L (eq_sym (repeat_length x (length S)))).
    apply verifyTriples_outcome_any_world.
Qed.

(** X19.  A region that is read but is not a well-formed sequence of
    sections makes the batch import throw what [decodeSections] threw,
    after all three regions were read and before anything is verified; it
    does not answer INVALID. *)
Theorem batch_malformed_sections
  (w : World) (mp sp kp : Z) (messagesBuf signaturesBuf publicKeysBuf : bytes) (e : Exn) :
  readRegion (memory w) mp messagesMaxLength = Return messagesBuf ->
  readRegion (memory w) sp signaturesMaxLength = Return signaturesBuf ->
  readRegion (memory w) kp publicKeysMaxLength = Return publicKeysBuf ->
  decodeSections messagesBuf = Throw e
  \/ (in_band (decodeSections messagesBuf) /\ decodeSections signaturesBuf = Throw e)
  \/ (in_band (decodeSections messagesBuf) /\ in_band (decodeSections signaturesBuf) /\
      decodeSections publicKeysBuf = Throw e) ->
  doEd25519BatchVerify mp sp kp w = (Throw e, logs (batchReads mp sp kp) w).
Proof.
  intros H1 H2 H3 D. unfold doEd25519BatchVerify.
  erewrite run_three_reads by eassumption. fold (batchReads mp sp kp).
  unfold bind, lift.
  destruct D as [D|[[[M DM] D]|[[M DM] [[S DS] D]]]].
  - now rewrite D.
  - now rewrite DM, D.
  - now rewrite DM, DS, D.
Qed.

End BatchExtras.

(** ** Humanize, chain queries and diagnostics *)

Section ServiceExtras.

Context {env : Collaborators} {svc : Services}.

(** X20.  The only value [addr_humanize] returns is 0, and it returns it
    only after the backend codec rendered the bytes of the source region,
    empty or not, and the rendering was written to the destination region;
    it allocates nothing.  When the codec throws, that exception is
    thrown and memory is as it was. *)
Theorem addr_humanize_returns (w : World) (sourcePtr destinationPtr : Z) :
  (forall code,
     fst (doAddrHumanize sourcePtr destinationPtr w) = Return code ->
     code = 0 /\
     exists canonical human m',
       readRegion (memory w) sourcePtr MAX_LENGTH_CANONICAL_ADDRESS = Return canonical /\
       humanAddress canonical = Return human /\
       writeRegion (memory w) destinationPtr (from_utf8 human) = Return m' /\
       snd (doAddrHumanize sourcePtr destinationPtr w)
       = logs [EvReadRegion sourcePtr MAX_LENGTH_CANONICAL_ADDRESS;
               EvWriteRegion destinationPtr (from_utf8 human)] (setMemory m' w)) /\
  (forall canonical e,
     readRegion (memory w) sourcePtr MAX_LENGTH_CANONICAL_ADDRESS = Return canonical ->
     humanAddress canonical = Throw e ->
     doAddrHumanize sourcePtr destinationPtr w
     = (Throw e, logs [EvReadRegion sourcePtr MAX_LENGTH_CANONICAL_ADDRESS] w)).
Proof.
  unfold doAddrHumanize, bind, callReadRegion, lift, callWriteRegion, ret.
  cbn [memory logs]. split.
  - intros code.
    destruct (readRegion (memory w) sourcePtr MAX_LENGTH_CANONICAL_ADDRESS) as [c|e];
      [|discriminate].
    destruct (humanAddress c) as [h|e] eqn:Hh; [|discriminate].
    destruct (writeRegion (memory w) destinationPtr (from_utf8 h)) as [m'|e] eqn:W;
      [|discriminate].
    cbn [fst snd]. intros H; injection H as <-. split; [reflexivity|].
    exists c, h, m'. repeat apply conj; try reflexivity; try assumption.
    unfold logs, setMemory; cbn. now rewrite <- app_assoc.
  - intros canonical e Hr Hh. rewrite Hr, Hh. reflexivity.
Qed.

(** X21.  [addr_canonicalize] followed by [addr_humanize] of what it wrote
    puts the original address bytes in the final destination, provided the
    canonical bytes fit the region they pass through and are read back
    from it, the codec renders them as the string it was given, and that
    string is written back as the bytes it was decoded from. *)
Theorem canonicalize_then_humanize
  (w : World) (sourcePtr midPtr destinationPtr : Z) (sourceData canonical : bytes)
  (m1 m2 : Memory) :
  readRegion (memory w) sourcePtr MAX_LENGTH_HUMAN_ADDRESS = Return sourceData ->
  sourceData <> [] ->
  canonicalAddress (toString_utf8 sourceData) = Return canonical ->
  writeRegion (memory w) midPtr canonical = Return m1 ->
  readRegion m1 midPtr MAX_LENGTH_CANONICAL_ADDRESS = Return canonical ->
  humanAddress canonical = Return (toString_utf8 sourceData) ->
  from_utf8 (toString_utf8 sourceData) = sourceData ->
  writeRegion m1 destinationPtr sourceData = Return m2 ->
  fst (doAddrCanonicalize sourcePtr midPtr w) = Return 0 /\
  doAddrHumanize midPtr destinationPtr (snd (doAddrCanonicalize sourcePtr midPtr w))
  = (Return 0,
     logs [EvReadRegion sourcePtr MAX_LENGTH_HUMAN_ADDRESS;
           EvCanonicalAddress (toString_utf8 sourceData);
           EvWriteRegion midPtr canonical;
           EvReadRegion midPtr MAX_LENGTH_CANONICAL_ADDRESS;
           EvWriteRegion destinationPtr sourceData] (setMemory m2 w)).
Proof.
  intros Hr Hne Hc Hw1 Hr1 Hh Hu Hw2.
  assert (C : doAddrCanonicalize sourcePtr midPtr w
              = (Return 0,
                 logs [EvReadRegion sourcePtr MAX_LENGTH_HUMAN_ADDRESS;
                       EvCanonicalAddress (toString_utf8 sourceData);
                       EvWriteRegion midPtr canonical] (setMemory m1 w))).
  { unfold doAddrCanonicalize. erewrite run_read by exact Hr.
    rewrite (len_cons_eqb Hne).
    unfold bind, callCanonicalAddress, callWriteRegion, ret. cbn [memory logs].
    rewrite Hc, Hw1. unfold logs, setMemory; cbn. now rewrite <- !app_assoc. }
  rewrite C. cbn [fst snd]. split; [reflexivity|].
  unfold doAddrHumanize. erewrite run_read by exact Hr1.
  erewrite run_lift by exact Hh. rewrite Hu.
  unfold bind, callWriteRegion, ret. cbn [memory logs setMemory]. rewrite Hw2.
  unfold logs, setMemory; cbn. now rewrite <- !app_assoc.
Qed.

(** X22.  A pointer returned by [query_chain] is never 0 and names the
    querier's answer to the request read from the region: the answer was
    written at it, under an allocation of exactly its length.  When the
    querier throws, that exception is thrown and nothing is allocated. *)
Theorem query_chain_returns (w : World) (requestPtr : Z) :
  (forall ptr,
     fst (doQueryChain requestPtr w) = Return ptr ->
     ptr <> 0 /\
     exists request result m1 m2,
       readRegion (memory w) requestPtr MAX_LENGTH_QUERY_CHAIN_REQUEST = Return request /\
       queryRaw request = Return result /\
       allocate (memory w) (len result) = Return (ptr, m1) /\
       writeRegion m1 ptr result = Return m2 /\
       memory (snd (doQueryChain requestPtr w)) = m2) /\
  (forall request e,
     readRegion (memory w) requestPtr MAX_LENGTH_QUERY_CHAIN_REQUEST = Return request ->
     queryRaw request = Throw e ->
     doQueryChain requestPtr w
     = (Throw e, logs [EvReadRegion requestPtr MAX_LENGTH_QUERY_CHAIN_REQUEST] w)).
Proof.
  assert (Run : forall request,
            readRegion (memory w) requestPtr MAX_LENGTH_QUERY_CHAIN_REQUEST = Return request ->
            doQueryChain requestPtr w
            = match queryRaw request with
              | Return result =>
                  writeToContract result
                    (logs [EvReadRegion requestPtr MAX_LENGTH_QUERY_CHAIN_REQUEST] w)
              | Throw e =>
                  (Throw e, logs [EvReadRegion requestPtr MAX_LENGTH_QUERY_CHAIN_REQUEST] w)
              end).
  { intros request Hr. unfold doQueryChain. erewrite run_read by exact Hr.
    unfold bind, lift. now destruct (queryRaw request). }
  split.
  - intros ptr H.
    destruct (readRegion (memory w) requestPtr MAX_LENGTH_QUERY_CHAIN_REQUEST)
      as [request|e] eqn:R.
    + rewrite (Run request eq_refl) in H |- *.
      destruct (queryRaw request) as [result|e] eqn:Q; [|discriminate H].
      destruct (writeToContract_returns result _ H) as (Hp & m1 & m2 & Ha & Hw & E).
      split; [exact Hp|]. exists request, result, m1, m2.
      split; [reflexivity|]. split; [exact Q|]. split; [exact Ha|].
      split; [exact Hw|]. rewrite E. reflexivity.
    + exfalso. unfold doQueryChain, bind, callReadRegion in H. rewrite R in H.
      discriminate H.
  - intros request e Hr Hq. rewrite (Run request Hr). now rewrite Hq.
Qed.

(** X23.  [debug] and [abort] never change guest memory or the store.
    [debug] prints one line, the UTF-8 decoding of the region, exactly when
    the region can be read; when it cannot, [debug] throws the read's
    exception and prints nothing.  [abort] ends in [VmError.aborted]
    carrying the decoding of the region exactly when the region can be
    read, and in the read's exception otherwise. *)
Theorem diagnostics_behaviour (p : Process) (w : World) (messagePtr : Z) :
  (sameState (proc_world p) (proc_world (snd (doDebug messagePtr p))) /\
   (forall messageData,
      readRegion (memory (proc_world p)) messagePtr MAX_LENGTH_DEBUG = Return messageData ->
      fst (doDebug messagePtr p) = Return tt /\
      proc_console (snd (doDebug messagePtr p))
      = proc_console p ++ [toString_utf8 messageData]) /\
   (forall e,
      readRegion (memory (proc_world p)) messagePtr MAX_LENGTH_DEBUG = Throw e ->
      fst (doDebug messagePtr p) = Throw e /\
      proc_console (snd (doDebug messagePtr p)) = proc_console p)) /\
  (sameState w (snd (doAbort messagePtr w)) /\
   (forall messageData,
      readRegion (memory w) messagePtr MAX_LENGTH_ABORT = Return messageData ->
      fst (doAbort messagePtr w) = VmError_aborted (toString_utf8 messageData)) /\
   (forall e,
      readRegion (memory w) messagePtr MAX_LENGTH_ABORT = Throw e ->
      fst (doAbort messagePtr w) = ReadFault e)).
Proof.
  unfold doDebug, doAbort, callReadRegion, sameState. cbn [memory storage logs].
  split.
  - destruct (readRegion (memory (proc_world p)) messagePtr MAX_LENGTH_DEBUG) as [d|e];
      cbn; repeat apply conj; try reflexivity; try discriminate;
      intros x H; injection H as <-; split; reflexivity.
  - destruct (readRegion (memory w) messagePtr MAX_LENGTH_ABORT) as [d|e];
      cbn; repeat apply conj; try reflexivity; try discriminate;
      intros x H; injection H as <-; reflexivity.
Qed.

End ServiceExtras.

(** ** The further properties at work on the reference instance *)

Section MoreReferenceExamples.

#[local] Existing Instance Reference.env.
#[local] Existing Instance ReferenceServices.svc.

Import Examples MoreExamples.

(** X1 on a guest whose allocator answers 0. *)
Lemma writeToContract_never_zero_witness :
  allocate (Collaborators := Exhausted.env) (memory Exhausted.full) (len (b "value"))
    = Return (0, memory Exhausted.full) /\
  writeToContract (env := Exhausted.env) (b "value") Exhausted.full
  = (Throw CommunicationError_zeroAddress,
     logs [EvAllocate (len (b "value"))] (setMemory (memory Exhausted.full) Exhausted.full)).
Proof.
  split; [reflexivity|].
  apply (proj2 (@writeToContract_never_zero Exhausted.env (b "value") Exhausted.full)).
  reflexivity.
Defined.

(** X2 on a store that holds "key" and not "other". *)
Lemma db_read_sentinel_witness :
  readRegion (memory dbStored) 3 MAX_LENGTH_DB_KEY = Return (b "other") /\
  storage_get (storage dbStored) (b "other") = None /\
  doDbRead 3 dbStored
  = (Return 0, logs [EvReadRegion 3 MAX_LENGTH_DB_KEY; EvStorageGet (b "other")] dbStored) /\
  readRegion (memory dbStored) 1 MAX_LENGTH_DB_KEY = Return (b "key") /\
  fst (doDbRead 1 dbStored) <> Return 0.
Proof.
  assert (R3 : readRegion (memory dbStored) 3 MAX_LENGTH_DB_KEY = Return (b "other"))
    by reflexivity.
  assert (R1 : readRegion (memory dbStored) 1 MAX_LENGTH_DB_KEY = Return (b "key"))
    by reflexivity.
  split; [exact R3|]. split; [reflexivity|].
  split; [apply (proj2 (db_read_sentinel dbStored 3 R3)); reflexivity|].
  split; [exact R1|].
  intros H. apply (proj1 (db_read_sentinel dbStored 1 R1)) in H. discriminate H.
Defined.

(** X3: write "value" under "key", read it through another pointer to
    "key"; the allocator answers with pointer 5. *)
Lemma db_write_then_read_witness :
  fst (doDbWrite 1 2 dbWorld) = Return tt /\
  fst (doDbRead 4 (snd (doDbWrite 1 2 dbWorld))) = Return 5 /\
  memory (snd (doDbRead 4 (snd (doDbWrite 1 2 dbWorld))))
  = (5, b "value") :: (5, repeat "000"%byte 5) :: memory dbWorld.
Proof.
  apply (@db_write_then_read Reference.env dbWorld 1 2 4 (b "key") (b "value") 5
           ((5, repeat "000"%byte 5) :: memory dbWorld)
           ((5, b "value") :: (5, repeat "000"%byte 5) :: memory dbWorld));
    try reflexivity.
  discriminate.
Defined.

(** X4: remove "key" from a store that holds it, then read it. *)
Lemma db_remove_then_read_witness :
  storage_get (storage dbStored) (b "key") = Some (b "old") /\
  fst (doDbRemove 1 dbStored) = Return tt /\
  fst (doDbRead 4 (snd (doDbRemove 1 dbStored))) = Return 0 /\
  memory (snd (doDbRead 4 (snd (doDbRemove 1 dbStored)))) = memory dbStored.
Proof.
  split; [reflexivity|].
  apply (@db_remove_then_read Reference.env dbStored 1 4 (b "key")); reflexivity.
Defined.

(** X8 on the normalized address "AQID" and on the padded "AQI=". *)
Lemma addr_validate_zero_iff_witness :
  fst (doAddrValidate 3 addresses) = Return 0 /\
  fst (doAddrValidate 2 addresses) <> Return 0.
Proof.
  split.
  - apply (proj2 (@addr_validate_zero_iff Reference.env addresses 3 (b "AQID") eq_refl)).
    split; [discriminate | reflexivity].
  - intros H.
    apply (proj1 (@addr_validate_zero_iff Reference.env addresses 2 (b "AQI=") eq_refl)) in H.
    destruct H as [_ H]. vm_compute in H. discriminate H.
Defined.

(** X9 on the address "AQID", whose canonical form is the bytes 1, 2, 3. *)
Lemma addr_canonicalize_zero_iff_witness :
  canonicalAddress (toString_utf8 (b "AQID")) = Return [x01; x02; x03]%byte /\
  doAddrCanonicalize 3 9 addresses
  = (Return 0,
     logs [EvReadRegion 3 MAX_LENGTH_HUMAN_ADDRESS;
           EvCanonicalAddress (toString_utf8 (b "AQID"));
           EvWriteRegion 9 [x01; x02; x03]%byte]
       (setMemory ((9, [x01; x02; x03]%byte) :: memory addresses) addresses)).
Proof.
  split; [reflexivity|].
  apply (proj1 (proj2 (@addr_canonicalize_zero_iff Reference.env addresses 3 9 (b "AQID")
                         eq_refl)));
    [discriminate | reflexivity | reflexivity].
Defined.

(** X10 on a signature of 20 bytes. *)
Lemma secp256k1_recover_short_signature_witness :
  readRegion (memory shortSignatures) 3 ECDSA_SIGNATURE_LEN = Return (repeat "s"%byte 20) /\
  doSecp256k1RecoverPubkey 1 3 0 shortSignatures
  = (Throw (SyntaxError "Cannot convert 0x to a BigInt"),
     logs [EvReadRegion 1 MESSAGE_HASH_MAX_LEN; EvReadRegion 3 ECDSA_SIGNATURE_LEN]
       shortSignatures).
Proof.
  split; [reflexivity|].
  apply (@secp256k1_recover_short_signature Reference.env shortSignatures 1 3 0
           hash32 (repeat "s"%byte 20) eq_refl eq_refl).
  cbn [length repeat]. lia.
Defined.

(** X11 on a signature of 33 bytes: [s] is its last byte, 115. *)
Lemma secp256k1_recover_splits_signature_witness :
  bigint_be (skipn 32 (repeat "s"%byte 33)) = 115 /\
  bigint_be (firstn 32 (repeat "s"%byte 33)) * 256 ^ (len (repeat "s"%byte 33) - 32)
    + bigint_be (skipn 32 (repeat "s"%byte 33))
  = bigint_be (repeat "s"%byte 33) /\
  fst (doSecp256k1RecoverPubkey 1 4 1 shortSignatures) = Return 6.
Proof.
  pose proof (@secp256k1_recover_splits_signature Reference.env shortSignatures 1 4 1
                hash32 (repeat "s"%byte 33) eq_refl eq_refl
                ltac:(cbn [length repeat]; lia)) as (_ & _ & E & R).
  split; [reflexivity|]. split; [exact E|]. rewrite R. reflexivity.
Defined.

(** X13 on a hash pointer that names no region. *)
Lemma verify_reads_before_library_witness :
  faulted (fst (doSecp256k1Verify 8 2 3 secpWorld)) /\
  filter isLibraryCall (trace (snd (doSecp256k1Verify 8 2 3 secpWorld)))
  = filter isLibraryCall (trace secpWorld).
Proof.
  apply (proj1 (@verify_reads_before_library Reference.env secpWorld 8 2 3)).
  intros (h & s & k & H & _). vm_compute in H. discriminate H.
Defined.

(** X14 on the batch whose second signature is wrong. *)
Lemma batch_calls_are_a_prefix_witness :
  exists n,
    snd (doEd25519BatchVerify 1 2 3 secondFails)
    = logs (batchReads 1 2 3
            ++ map verifyEvent (firstn n (expandedTriples pairwiseM secondFailsS secondFailsK)))
        secondFails.
Proof. exact (batch_calls_are_a_prefix secondFails_decoded). Defined.

Lemma secondThrows_decoded :
  BatchDecoded secondThrows 1 2 3 pairwiseM secondThrowsS secondThrowsK.
Proof. decoded_by_evaluation pairwiseM secondThrowsS secondThrowsK. Defined.

(** X15 on a batch whose second key makes the library throw. *)
Lemma batch_library_fault_witness :
  let t1 := (b "am1", b "m1", b "a") in
  let t2 := (b "m2", b "m2", b "") in
  let t3 := (b "xx", b "m3", b "c") in
  expandedTriples pairwiseM secondThrowsS secondThrowsK = [t1] ++ t2 :: [t3] /\
  throwsOn (LibraryError "empty public key") t2 /\
  doEd25519BatchVerify 1 2 3 secondThrows
  = (Throw (LibraryError "empty public key"),
     logs (batchReads 1 2 3 ++ map verifyEvent ([t1] ++ [t2])) secondThrows).
Proof.
  intros t1 t2 t3.
  assert (E : expandedTriples pairwiseM secondThrowsS secondThrowsK = [t1] ++ t2 :: [t3])
    by reflexivity.
  assert (P : Forall passes [t1]) by (repeat constructor).
  assert (T : throwsOn (LibraryError "empty public key") t2) by reflexivity.
  split; [exact E|]. split; [exact T|].
  exact (@batch_library_fault Reference.env secondThrows 1 2 3
           pairwiseM secondThrowsS secondThrowsK [t1] [t3] t2
           (LibraryError "empty public key") secondThrows_decoded E P T).
Defined.

Lemma lonelyMessage_decoded : BatchDecoded lonelyMessage 1 2 3 [b "m"] [] [].
Proof. decoded_by_evaluation [b "m"] (@nil bytes) (@nil bytes). Defined.

(** X16 on one message without signature or key. *)
Lemma batch_without_signatures_witness :
  doEd25519BatchVerify 1 2 3 lonelyMessage
  = (Return ED25519_VERIFY_CODE_VALID, logs (batchReads 1 2 3) lonelyMessage).
Proof.
  apply (proj1 (batch_without_signatures lonelyMessage_decoded)).
  left. split; [reflexivity | cbn [length]; lia].
Defined.

Lemma batchOfOne_decoded : BatchDecoded batchOfOne 1 2 3 [b "m"] [b "am"] [b "a"].
Proof. decoded_by_evaluation [b "m"] [b "am"] [b "a"]. Defined.

(** X17 on one triple, as a batch and in three plain regions. *)
Lemma batch_of_one_is_single_verify_witness :
  fst (doEd25519BatchVerify 1 2 3 batchOfOne) = fst (doEd25519Verify 11 12 13 batchOfOne).
Proof.
  exact (@batch_of_one_is_single_verify Reference.env batchOfOne batchOfOne 1 2 3 11 12 13
           (b "m") (b "am") (b "a") batchOfOne_decoded eq_refl eq_refl eq_refl).
Defined.

Lemma repeatedMessage_decoded :
  BatchDecoded repeatedMessage 1 2 3
    (repeat (b "m") 2) [b "am"; b "bm"] [b "a"; b "b"].
Proof. decoded_by_evaluation [b "m"; b "m"] [b "am"; b "bm"] [b "a"; b "b"]. Defined.

Lemma repeatedKey_decoded :
  BatchDecoded repeatedKey 1 2 3
    [b "m1"; b "m2"] [b "am1"; b "am2"] (repeat (b "a") 2).
Proof. decoded_by_evaluation [b "m1"; b "m2"] [b "am1"; b "am2"] [b "a"; b "a"]. Defined.

(** X18 on the batches [sharedMessage] and [sharedKey] and their written-out
    forms. *)
Lemma batch_broadcast_is_repetition_witness :
  fst (doEd25519BatchVerify 1 2 3 sharedMessage)
    = fst (doEd25519BatchVerify 1 2 3 repeatedMessage) /\
  fst (doEd25519BatchVerify 1 2 3 sharedKey)
    = fst (doEd25519BatchVerify 1 2 3 repeatedKey).
Proof.
  split.
  - exact (proj1 (@batch_broadcast_is_repetition Reference.env sharedMessage repeatedMessage
                    1 2 3 1 2 3 (b "m") [b "am"; b "bm"])
             [b "a"; b "b"] eq_refl sharedMessage_decoded repeatedMessage_decoded).
  - exact (proj2 (@batch_broadcast_is_repetition Reference.env sharedKey repeatedKey
                    1 2 3 1 2 3 (b "a") [b "am1"; b "am2"])
             [b "m1"; b "m2"] eq_refl sharedKey_decoded repeatedKey_decoded).
Defined.

(** X19 on a message region of three bytes, too short for a length header. *)
Lemma batch_malformed_sections_witness :
  decodeSections (b "xyz") = Throw (RegionError "malformed sections") /\
  doEd25519BatchVerify 1 2 3 malformedMessages
  = (Throw (RegionError "malformed sections"), logs (batchReads 1 2 3) malformedMessages).
Proof.
  split; [reflexivity|].
  apply (@batch_malformed_sections Reference.env malformedMessages 1 2 3
           (b "xyz") (Reference.sections pairwiseS) (Reference.sections pairwiseK));
    try by_evaluation.
  left. reflexivity.
Defined.

(** X20 on canonical bytes 1, 2, 3, rendered "AQID", and on the empty
    canonical address, which the reference codec refuses. *)
Lemma addr_humanize_returns_witness :
  fst (doAddrHumanize 2 8 services) = Return 0 /\
  (exists canonical human m',
     readRegion (memory services) 2 MAX_LENGTH_CANONICAL_ADDRESS = Return canonical /\
     humanAddress canonical = Return human /\
     writeRegion (memory services) 8 (from_utf8 human) = Return m' /\
     snd (doAddrHumanize 2 8 services)
     = logs [EvReadRegion 2 MAX_LENGTH_CANONICAL_ADDRESS;
             EvWriteRegion 8 (from_utf8 human)] (setMemory m' services)) /\
  doAddrHumanize 3 8 services
  = (Throw (BackendError "empty canonical address"),
     logs [EvReadRegion 3 MAX_LENGTH_CANONICAL_ADDRESS] services).
Proof.
  pose proof (addr_humanize_returns services 2 8) as [Inv _].
  pose proof (addr_humanize_returns services 3 8) as [_ Thr].
  assert (R : fst (doAddrHumanize 2 8 services) = Return 0) by reflexivity.
  split; [exact R|]. split; [exact (proj2 (Inv 0 R))|].
  apply (Thr [] (BackendError "empty canonical address")); reflexivity.
Defined.

(** X21: "AQID" is canonicalized into region 8 and humanized from there
    into region 9. *)
Lemma canonicalize_then_humanize_witness :
  fst (doAddrCanonicalize 1 8 services) = Return 0 /\
  doAddrHumanize 8 9 (snd (doAddrCanonicalize 1 8 services))
  = (Return 0,
     logs [EvReadRegion 1 MAX_LENGTH_HUMAN_ADDRESS;
           EvCanonicalAddress (toString_utf8 (b "AQID"));
           EvWriteRegion 8 [x01; x02; x03]%byte;
           EvReadRegion 8 MAX_LENGTH_CANONICAL_ADDRESS;
           EvWriteRegion 9 (b "AQID")]
       (setMemory ((9, b "AQID") :: (8, [x01; x02; x03]%byte) :: memory services) services)).
Proof.
  apply (@canonicalize_then_humanize Reference.env ReferenceServices.svc services 1 8 9
           (b "AQID") [x01; x02; x03]%byte
           ((8, [x01; x02; x03]%byte) :: memory services)
           ((9, b "AQID") :: (8, [x01; x02; x03]%byte) :: memory services));
    try reflexivity.
  discriminate.
Defined.

(** X22 on the request "query", answered "yreuq" at pointer 10, and on the
    empty request, which the reference querier refuses. *)
Lemma query_chain_returns_witness :
  fst (doQueryChain 4 services) = Return 10 /\
  (exists request result m1 m2,
     readRegion (memory services) 4 MAX_LENGTH_QUERY_CHAIN_REQUEST = Return request /\
     queryRaw request = Return result /\
     allocate (memory services) (len result) = Return (10, m1) /\
     writeRegion m1 10 result = Return m2 /\
     memory (snd (doQueryChain 4 services)) = m2) /\
  doQueryChain 3 services
  = (Throw (BackendError "empty query"),
     logs [EvReadRegion 3 MAX_LENGTH_QUERY_CHAIN_REQUEST] services).
Proof.
  pose proof (query_chain_returns services 4) as [Inv _].
  pose proof (query_chain_returns services 3) as [_ Thr].
  assert (R : fst (doQueryChain 4 services) = Return 10) by reflexivity.
  split; [exact R|]. split; [exact (proj2 (Inv 10 R))|].
  apply (Thr [] (BackendError "empty query")); reflexivity.
Defined.

(** X23 on a readable region, printed and carried as "AQID", and on a
    pointer that names no region. *)
Lemma diagnostics_behaviour_witness :
  (fst (doDebug 1 quiet) = Return tt /\
   proc_console (snd (doDebug 1 quiet)) = proc_console quiet ++ [toString_utf8 (b "AQID")]) /\
  (fst (doDebug 7 quiet) = Throw (RegionError "no region at this pointer") /\
   proc_console (snd (doDebug 7 quiet)) = proc_console quiet) /\
  fst (doAbort 1 services) = VmError_aborted (toString_utf8 (b "AQID")) /\
  fst (doAbort 7 services) = ReadFault (RegionError "no region at this pointer").
Proof.
  pose proof (diagnostics_behaviour quiet services 1) as [(_ & D & _) (_ & A & _)].
  pose proof (diagnostics_behaviour quiet services 7) as [(_ & _ & D') (_ & _ & A')].
  split; [exact (D (b "AQID") eq_refl)|].
  split; [exact (D' (RegionError "no region at this pointer") eq_refl)|].
  split; [exact (A (b "AQID") eq_refl)|].
  exact (A' (RegionError "no region at this pointer") eq_refl).
Defined.

End MoreReferenceExamples.
